(** * DataPrivacyToolkit: a shallow embedding of [src/main.py]

    The toolkit holds a pandas [DataFrame] and offers five methods:
    [hash_data], [pseudonymize_data], [create_fake_data],
    [drop_sensitive_data] and [save_anonymized_data].  Each method body runs
    inside a [try]/[except Exception] block that prints a report.

    The development is organised as follows.
    - [SHA256]: the hash function behind [hashlib.sha256(...).hexdigest()].
    - [Py]: the values a cell can hold, [str(x)], exceptions, and the
      state-and-exception monad in which the method bodies run.
    - [Frame]: the part of [pandas.DataFrame] that the methods call.
    - [Csv]: the writer behind [DataFrame.to_csv] and a reader for it.
    - [Toolkit]: the five methods, translated line by line.
    - the theorems. *)

From Stdlib Require Import ZArith List Bool Arith Lia.
From Stdlib Require Import Strings.Ascii Strings.String Strings.Byte DecimalString.
Import ListNotations.

Local Open Scope Z_scope.

(* ================================================================== *)
(** ** SHA-256 (FIPS 180-4), as computed by [hashlib.sha256] *)
(* ================================================================== *)

Module SHA256.

(** 32-bit words are integers in [0, 2^32); every operation wraps. *)
Definition w32 (x : Z) : Z := Z.land x 0xffffffff.
Definition add32 (a b : Z) : Z := w32 (a + b).
Definition not32 (a : Z) : Z := Z.lxor a 0xffffffff.
Definition rotr (n x : Z) : Z :=
  Z.lor (Z.shiftr x n) (w32 (Z.shiftl x (32 - n))).

Definition Ch (x y z : Z) : Z := Z.lxor (Z.land x y) (Z.land (not32 x) z).
Definition Maj (x y z : Z) : Z :=
  Z.lxor (Z.lxor (Z.land x y) (Z.land x z)) (Z.land y z).
Definition Sigma0 (x : Z) : Z := Z.lxor (Z.lxor (rotr 2 x) (rotr 13 x)) (rotr 22 x).
Definition Sigma1 (x : Z) : Z := Z.lxor (Z.lxor (rotr 6 x) (rotr 11 x)) (rotr 25 x).
Definition sigma0 (x : Z) : Z := Z.lxor (Z.lxor (rotr 7 x) (rotr 18 x)) (Z.shiftr x 3).
Definition sigma1 (x : Z) : Z := Z.lxor (Z.lxor (rotr 17 x) (rotr 19 x)) (Z.shiftr x 10).

(** FIPS 180-4, 4.2.2 and 5.3.3: the round constants are the first 32
    bits of the fractional parts of the cube roots of the first 64 primes,
    and the initial hash value those of the square roots of the first 8
    primes. *)
Definition is_prime (n : nat) : bool :=
  forallb (fun d => negb (Nat.eqb (n mod d) 0)) (seq 2 (n - 2)).

Definition primes : list nat := filter is_prime (seq 2 310).

(** The integer [k]-th root of [n], found bit by bit from the top. *)
Fixpoint root_bits (k n : Z) (bits : nat) (acc : Z) : Z :=
  match bits with
  | O => acc
  | S b =>
      let cand := Z.lor acc (Z.shiftl 1 (Z.of_nat b)) in
      root_bits k n b (if cand ^ k <=? n then cand else acc)
  end.

Definition frac_root (k : Z) (p : nat) : Z :=
  w32 (root_bits k (Z.shiftl (Z.of_nat p) (32 * k)) 40 0).

Definition K : list Z := Eval vm_compute in map (frac_root 3) primes.

(** The eight working variables, also the chaining value. *)
Record Hash : Type := mkHash {
  ha : Z; hb : Z; hc : Z; hd : Z; he : Z; hf : Z; hg : Z; hh : Z
}.

Definition H0 : Hash :=
  Eval vm_compute in
    let r i := frac_root 2 (nth i primes O) in
    mkHash (r 0%nat) (r 1%nat) (r 2%nat) (r 3%nat)
           (r 4%nat) (r 5%nat) (r 6%nat) (r 7%nat).

(** Padding: the byte 0x80, zero bytes up to 56 modulo 64, then the bit
    length as a 64-bit big-endian integer. *)
Definition be_bytes (n : nat) (x : Z) : list Z :=
  map (fun i => Z.land (Z.shiftr x (8 * Z.of_nat i)) 0xff) (rev (seq 0 n)).

Definition pad (msg : list Z) : list Z :=
  let len := Z.of_nat (List.length msg) in
  msg ++ [0x80] ++ repeat 0 (Z.to_nat ((55 - len) mod 64))
      ++ be_bytes 8 (8 * len).

Definition be_word (bs : list Z) : Z :=
  fold_left (fun acc b => Z.lor (Z.shiftl acc 8) b) bs 0.

Fixpoint words (n : nat) (bs : list Z) : list Z :=
  match n with
  | O => []
  | S n' => be_word (firstn 4 bs) :: words n' (skipn 4 bs)
  end.

(** One round: [w] is the sliding window W[t..t+15] of the message
    schedule. *)
Definition round (st : Hash * list Z) (k : Z) : Hash * list Z :=
  let '(s, w) := st in
  let wt := nth 0 w 0 in
  let t1 := add32 (add32 (add32 (add32 (hh s) (Sigma1 (he s)))
                                 (Ch (he s) (hf s) (hg s))) k) wt in
  let t2 := add32 (Sigma0 (ha s)) (Maj (ha s) (hb s) (hc s)) in
  let wnext := add32 (add32 (add32 (sigma1 (nth 14 w 0)) (nth 9 w 0))
                            (sigma0 (nth 1 w 0))) wt in
  (mkHash (add32 t1 t2) (ha s) (hb s) (hc s)
          (add32 (hd s) t1) (he s) (hf s) (hg s),
   tl w ++ [wnext]).

Definition compress (h : Hash) (block : list Z) : Hash :=
  let s := fst (fold_left round K (h, words 16 block)) in
  mkHash (add32 (ha h) (ha s)) (add32 (hb h) (hb s))
         (add32 (hc h) (hc s)) (add32 (hd h) (hd s))
         (add32 (he h) (he s)) (add32 (hf h) (hf s))
         (add32 (hg h) (hg s)) (add32 (hh h) (hh s)).

Fixpoint blocks (n : nat) (h : Hash) (bs : list Z) : Hash :=
  match n with
  | O => h
  | S n' => blocks n' (compress h (firstn 64 bs)) (skipn 64 bs)
  end.

Definition sha256 (msg : list byte) : Hash :=
  let p := pad (map (fun b => Z.of_N (Byte.to_N b)) msg) in
  blocks (List.length p / 64)%nat H0 p.

(** [digest()]: the 32 bytes of the final chaining value. *)
Definition digest (msg : list byte) : list Z :=
  let h := sha256 msg in
  flat_map (be_bytes 4) [ha h; hb h; hc h; hd h; he h; hf h; hg h; hh h].

Definition hex_alphabet : list ascii :=
  list_ascii_of_string "0123456789abcdef".

Definition hexdigit (n : Z) : ascii :=
  nth (Z.to_nat (Z.land n 0xf)) hex_alphabet "0"%char.

Definition hex_byte (b : Z) : list ascii :=
  [hexdigit (Z.shiftr b 4); hexdigit b].

(** [hexdigest()]: two lowercase hexadecimal digits per digest byte. *)
Definition hexdigest (msg : list byte) : string :=
  string_of_list_ascii (flat_map hex_byte (digest msg)).

End SHA256.

(* ================================================================== *)
(** ** Python values and exceptions *)
(* ================================================================== *)

Local Open Scope string_scope.

(** Characters that matter to the CSV dialect. *)
Definition LF : ascii := "010"%char.
Definition CR : ascii := "013"%char.
Definition COMMA : ascii := ","%char.
Definition DQUOTE : ascii := "034"%char.

Module Py.

(** A [str] is represented by its UTF-8 bytes, one [ascii] per byte, so
    that [s.encode()] is the byte list of [s].  (A [str] holding a lone
    surrogate has no UTF-8 form and lies outside this representation.) *)
Definition encode (s : string) : list byte := list_byte_of_string s.

(** The objects a cell of the frame may hold: the two missing-value
    markers ([None] and the float [nan]), integers and strings.  (Other
    floats are left out: their [str] form is not modelled.) *)
Inductive Value : Type :=
| VNone
| VNaN
| VInt (n : Z)
| VStr (s : string).

(** Equality as [Series.unique], [dict] and [Series.map] use it on these
    objects (pandas hash tables treat [nan] as equal to [nan]). *)
Definition Value_eqb (a b : Value) : bool :=
  match a, b with
  | VNone, VNone => true
  | VNaN, VNaN => true
  | VInt n, VInt m => Z.eqb n m
  | VStr s, VStr t => String.eqb s t
  | _, _ => false
  end.

(** [str(x)] *)
Definition str (x : Value) : string :=
  match x with
  | VNone => "None"
  | VNaN => "nan"
  | VInt n => NilZero.string_of_int (Z.to_int n)
  | VStr s => s
  end.

(** [sep.join(parts)] *)
Fixpoint join (sep : string) (parts : list string) : string :=
  match parts with
  | [] => EmptyString
  | [p] => p
  | p :: rest => p ++ sep ++ join sep rest
  end.

(** The exceptions that the calls made by the toolkit can raise. *)
Inductive Exn : Type :=
| KeyError (key : string)
| ValueError (msg : string)
| OSError (path : string)
| InvalidIndexError.

(** [s.lower()], on the ASCII letters.  (The only use is the test of a
    file name against ASCII extensions, and no other character becomes
    one of their letters when lowered.) *)
Definition lower_char (c : ascii) : ascii :=
  let n := nat_of_ascii c in
  if ((65 <=? n) && (n <=? 90))%nat then ascii_of_nat (n + 32) else c.

Fixpoint lower (s : string) : string :=
  match s with
  | EmptyString => EmptyString
  | String c s' => String (lower_char c) (lower s')
  end.

(** [s.endswith(suffix)] *)
Definition endswith (s suffix : string) : bool :=
  let n := String.length s in
  let m := String.length suffix in
  (m <=? n)%nat && String.eqb (substring (n - m) m s) suffix.

(** [string.ascii_letters + string.digits] *)
Definition ascii_letters : string :=
  "abcdefghijklmnopqrstuvwxyzABCDEFGHIJKLMNOPQRSTUVWXYZ".
Definition digits : string := "0123456789".

(** A [dict], in insertion order. *)
Definition dict (Kt V : Type) : Type := list (Kt * V).

Fixpoint dict_get {Kt V} (eqb : Kt -> Kt -> bool) (d : dict Kt V) (k : Kt)
  : option V :=
  match d with
  | [] => None
  | (k', v) :: d' => if eqb k' k then Some v else dict_get eqb d' k
  end.

(** [d[k] = v]: overwrite in place, or insert at the end. *)
Fixpoint dict_set {Kt V} (eqb : Kt -> Kt -> bool) (d : dict Kt V) (k : Kt)
  (v : V) : dict Kt V :=
  match d with
  | [] => [(k, v)]
  | (k', v') :: d' =>
      if eqb k' k then (k', v) :: d' else (k', v') :: dict_set eqb d' k v
  end.

Definition dict_keys {Kt V} (d : dict Kt V) : list Kt := map fst d.

End Py.
Import Py.

(* ================================================================== *)
(** ** The part of [pandas.DataFrame] used by the toolkit *)
(* ================================================================== *)

Module Frame.

(** A frame: the length of its index and its columns in order, each a
    label with one value per row. *)
Record DataFrame : Type := mkFrame {
  nrows : nat;
  columns : list (string * list Value)
}.

Definition labels (df : DataFrame) : list string := map fst (columns df).

(** The invariant pandas keeps on a frame whose labels are unique: every
    column has exactly one value per index entry. *)
Definition wf (df : DataFrame) : Prop :=
  NoDup (labels df) /\
  Forall (fun c => List.length (snd c) = nrows df) (columns df).

(** [len(df)] *)
Definition len (df : DataFrame) : nat := nrows df.

Fixpoint lookup (cols : list (string * list Value)) (c : string)
  : option (list Value) :=
  match cols with
  | [] => None
  | (l, vs) :: cols' => if String.eqb l c then Some vs else lookup cols' c
  end.

(** [df[c]]: the column, or [KeyError]. *)
Definition getitem (df : DataFrame) (c : string) : Exn + list Value :=
  match lookup (columns df) c with
  | Some vs => inr vs
  | None => inl (KeyError c)
  end.

Fixpoint assign (cols : list (string * list Value)) (c : string)
  (vs : list Value) : list (string * list Value) :=
  match cols with
  | [] => [(c, vs)]
  | (l, old) :: cols' =>
      if String.eqb l c then (l, vs) :: cols'
      else (l, old) :: assign cols' c vs
  end.

(** [df[c] = vs]: an existing column is overwritten where it stands, a
    new label is appended as the last column.  The values must be as many
    as the index entries, else [ValueError].  (The toolkit only assigns
    sequences built from the frame itself, of length [len(df)].) *)
Definition setitem (df : DataFrame) (c : string) (vs : list Value)
  : Exn + DataFrame :=
  if Nat.eqb (List.length vs) (nrows df)
  then inr (mkFrame (nrows df) (assign (columns df) c vs))
  else inl (ValueError "Length of values does not match length of index").

(** [df.drop(columns=[c], inplace=True)]: [KeyError] when the label is
    not found. *)
Definition drop (df : DataFrame) (c : string) : Exn + DataFrame :=
  match lookup (columns df) c with
  | Some _ =>
      inr (mkFrame (nrows df)
             (filter (fun p => negb (String.eqb (fst p) c)) (columns df)))
  | None => inl (KeyError c)
  end.

(** [Series.unique()]: the distinct values in order of first
    appearance. *)
Fixpoint unique_acc (seen : list Value) (vs : list Value) : list Value :=
  match vs with
  | [] => []
  | v :: vs' =>
      if existsb (Value_eqb v) seen then unique_acc seen vs'
      else v :: unique_acc (v :: seen) vs'
  end.
Definition unique (vs : list Value) : list Value := unique_acc [] vs.

(** [Series.apply(f)] *)
Definition apply (f : Value -> Value) (vs : list Value) : list Value :=
  map f vs.

(** Both missing-value markers, [None] and [nan], are among the values. *)
Definition mixed_missing (vs : list Value) : bool :=
  existsb (Value_eqb VNone) vs && existsb (Value_eqb VNaN) vs.

(** The values that [Series.map(d)] yields for a [dict] [d]: a value
    without an entry becomes [nan]. *)
Definition mapped (d : dict Value string) (vs : list Value) : list Value :=
  map (fun v => match dict_get Value_eqb d v with
                | Some p => VStr p
                | None => VNaN
                end) vs.

(** [Series.map(d)] for a [dict] [d].  The keys of [d] become an index,
    in which pandas 3 takes [None] and [nan] for the same missing label:
    when both are keys the index is not unique and the look-up raises
    [InvalidIndexError].  (pandas 2 keeps the two apart and maps; the
    properties below are stated where both agree.) *)
Definition map_dict (d : dict Value string) (vs : list Value)
  : Exn + list Value :=
  if mixed_missing (dict_keys d) then inl InvalidIndexError
  else inr (mapped d vs).

(** The compression that [to_csv] infers from the name of its
    destination ([compression='infer'], the default): the first
    extension of [extension_to_compression] that ends the lowered
    name. *)
Inductive Compression : Type := tar | gzip | bz2 | zip | xz | zstd.

Definition extension_to_compression : dict string Compression :=
  [ (".tar", tar); (".tar.gz", tar); (".tar.bz2", tar); (".tar.xz", tar);
    (".gz", gzip); (".bz2", bz2); (".zip", zip); (".xz", xz);
    (".zst", zstd) ].

Definition infer_compression (path : string) : option Compression :=
  option_map snd
    (find (fun entry => endswith (lower path) (fst entry))
          extension_to_compression).

End Frame.
Import Frame.

(* ================================================================== *)
(** ** CSV: the writer behind [DataFrame.to_csv] and a reader *)
(* ================================================================== *)

Module Csv.

(** The dialect that [to_csv] sets up: delimiter [,], quote character
    the double quote, quotes doubled inside a quoted field, minimal
    quoting, and line terminator [os.linesep], here the line feed.  The
    special characters are ASCII, so working on the UTF-8 bytes of the
    text is the same as working on its characters. *)
Definition special (c : ascii) : bool :=
  Ascii.eqb c COMMA || Ascii.eqb c DQUOTE || Ascii.eqb c LF.

Fixpoint needs_quote (s : string) : bool :=
  match s with
  | EmptyString => false
  | String c s' => special c || needs_quote s'
  end.

Fixpoint double_quotes (s : string) : string :=
  match s with
  | EmptyString => EmptyString
  | String c s' =>
      if Ascii.eqb c DQUOTE
      then String DQUOTE (String DQUOTE (double_quotes s'))
      else String c (double_quotes s')
  end.

Definition quoted (s : string) : string :=
  String DQUOTE (double_quotes s ++ String DQUOTE EmptyString).

(** Minimal quoting: a field is quoted only when it holds the delimiter,
    the quote character or a character of the line terminator. *)
Definition write_field (s : string) : string :=
  if needs_quote s then quoted s else s.

(** [writer.writerow(fields)]: a record that would come out empty
    although it has a field (a single empty field) is written as a pair
    of quotes. *)
Definition writerow (fields : list string) : string :=
  let body := join "," (map write_field fields) in
  (if negb (Nat.eqb (List.length fields) 0) && String.eqb body EmptyString
   then quoted EmptyString else body) ++ String LF EmptyString.

(** [writer.writerows(rows)]: one record after the other. *)
Definition writerows (rows : list (list string)) : string :=
  fold_right (fun r text => writerow r ++ text) EmptyString rows.

(** The reader: the state machine of [csv.reader] for the same dialect,
    run over the characters of the file. *)
Inductive Mode : Type :=
| StartRecord | AfterCR | StartField | InField | InQuoted | QuoteInQuoted.

Definition snoc (s : string) (c : ascii) : string :=
  s ++ String c EmptyString.

(** The state of the reader: its mode, the field being read and the
    fields of the current record read so far. *)
Definition State : Type := (Mode * string * list string)%type.

(** The end of a record: the field is saved and the record comes out. *)
Definition end_record (fld : string) (flds : list string) (c : ascii)
  : State * option (list string) :=
  ((if Ascii.eqb c CR then AfterCR else StartRecord, EmptyString, []),
   Some (flds ++ [fld])%list).

Definition start_field (fld : string) (flds : list string) (c : ascii)
  : State * option (list string) :=
  if Ascii.eqb c LF || Ascii.eqb c CR then end_record fld flds c
  else if Ascii.eqb c DQUOTE then ((InQuoted, fld, flds), None)
  else if Ascii.eqb c COMMA
  then ((StartField, EmptyString, (flds ++ [fld])%list), None)
  else ((InField, snoc fld c, flds), None).

(** An empty line is a record without fields. *)
Definition start_record (fld : string) (flds : list string) (c : ascii)
  : State * option (list string) :=
  if Ascii.eqb c LF then ((StartRecord, EmptyString, []), Some [])
  else if Ascii.eqb c CR then ((AfterCR, EmptyString, []), Some [])
  else start_field fld flds c.

(** One character: the next state, and the record that ends here if one
    does. *)
Definition step (st : State) (c : ascii) : State * option (list string) :=
  let '(m, fld, flds) := st in
  match m with
  | StartRecord => start_record fld flds c
  | AfterCR =>
      if Ascii.eqb c LF then ((StartRecord, EmptyString, []), None)
      else start_record fld flds c
  | StartField => start_field fld flds c
  | InField =>
      if Ascii.eqb c LF || Ascii.eqb c CR then end_record fld flds c
      else if Ascii.eqb c COMMA
      then ((StartField, EmptyString, (flds ++ [fld])%list), None)
      else ((InField, snoc fld c, flds), None)
  | InQuoted =>
      if Ascii.eqb c DQUOTE then ((QuoteInQuoted, fld, flds), None)
      else ((InQuoted, snoc fld c, flds), None)
  | QuoteInQuoted =>
      if Ascii.eqb c DQUOTE then ((InQuoted, snoc fld c, flds), None)
      else if Ascii.eqb c COMMA
      then ((StartField, EmptyString, (flds ++ [fld])%list), None)
      else if Ascii.eqb c LF || Ascii.eqb c CR then end_record fld flds c
      else ((InField, snoc fld c, flds), None)
  end.

(** At the end of the input a record under way comes out as it is. *)
Definition flush (st : State) : list (list string) :=
  let '(m, fld, flds) := st in
  match m with
  | StartRecord | AfterCR => []
  | _ => [(flds ++ [fld])%list]
  end.

Fixpoint reader_from (st : State) (input : string) : list (list string) :=
  match input with
  | EmptyString => flush st
  | String c rest =>
      match step st c with
      | (st', Some record) => record :: reader_from st' rest
      | (st', None) => reader_from st' rest
      end
  end.

(** [list(csv.reader(f))] *)
Definition reader (text : string) : list (list string) :=
  reader_from (StartRecord, EmptyString, []) text.

(** What [to_csv] writes for a cell: missing values as the empty
    [na_rep], anything else as [str] gives it. *)
Definition csv_str (v : Value) : string :=
  match v with
  | VNone | VNaN => EmptyString
  | _ => str v
  end.

Definition row (df : DataFrame) (i : nat) : list string :=
  map (fun c => csv_str (nth i (snd c) VNaN)) (columns df).

Definition rows (df : DataFrame) : list (list string) :=
  map (row df) (seq 0 (nrows df)).

(** The text of [df.to_csv(path, index=False)]: the labels, then one
    record per row, and no index column. *)
Definition to_csv (df : DataFrame) : string :=
  writerows (labels df :: rows df).

End Csv.

(* ================================================================== *)
(** ** The world a method call runs in *)
(* ================================================================== *)

(** The five [Faker] providers the toolkit calls. *)
Inductive Provider : Type :=
| name | address | email | credit_card_number | phone_number.

(** A file system: the files by path; the paths on which a write fails;
    for such a path, how much of the content gets through before the
    failure ([None] when the file cannot even be opened: missing
    directory, no permission; [Some n] when it is opened, hence
    truncated, and the write fails after [n] characters: full disk, size
    limit); what each compressor makes of a text at a given time; and the
    time, which every write advances. *)
Record FileSystem : Type := mkFS {
  files : dict string string;
  unwritable : list string;
  cut : string -> option nat;
  archive : Compression -> nat -> string -> string;
  clock : nat
}.

(** The file system after a write has left [files'], one tick later. *)
Definition stored (fs : FileSystem) (files' : dict string string)
  : FileSystem :=
  mkFS files' (unwritable fs) (cut fs) (archive fs) (S (clock fs)).

(** [with open(path, "w") as f: f.write(content)]: the exception raised,
    if any, and the file system left.  Opening truncates the file, so a
    write that fails later leaves what got through. *)
Definition write_file (fs : FileSystem) (path content : string)
  : option Exn * FileSystem :=
  if existsb (String.eqb path) (unwritable fs)
  then match cut fs path with
       | None => (Some (OSError path), stored fs (files fs))
       | Some n =>
           (Some (OSError path),
            stored fs (dict_set String.eqb (files fs) path
                         (substring 0 n content)))
       end
  else (None, stored fs (dict_set String.eqb (files fs) path content)).

(** What a method prints, one constructor per [print] statement of the
    source, carrying the values interpolated into the message. *)
Inductive Line : Type :=
| Hashed (column_name : string)
| ErrorHashing (column_name : string) (e : Exn)
| Pseudonymized (column_name : string)
| ErrorPseudonymizing (column_name : string) (e : Exn)
| Replaced (column_name data_type : string)
| ErrorCreatingFake (column_name : string) (e : Exn)
| Dropped (column_name : string)
| ErrorNoColumn (column_name : string)
| ErrorDropping (column_name : string) (e : Exn)
| Saved (file_name : string)
| ErrorSaving (file_name : string) (e : Exn).

(** The state: the frame held in [self.data_frame], the module [random]
    (the numbers it will draw and how many were drawn), the [Faker]
    object (what each provider will return at each call and how many calls
    were made), the standard output, and the disk. *)
Record World : Type := mkWorld {
  data_frame : DataFrame;
  entropy : nat -> nat;
  drawn : nat;
  fake : Provider -> nat -> string;
  called : nat;
  stdout : list Line;
  disk : FileSystem
}.

Inductive Outcome (A : Type) : Type :=
| Returned (a : A)
| Raised (e : Exn).
Arguments Returned {A} a.
Arguments Raised {A} e.

(** A computation either returns or raises, and changes the world either
    way. *)
Definition M (A : Type) : Type := World -> Outcome A * World.

Definition ret {A} (a : A) : M A := fun w => (Returned a, w).

Definition bind {A B} (c : M A) (k : A -> M B) : M B :=
  fun w => match c w with
           | (Returned a, w') => k a w'
           | (Raised e, w') => (Raised e, w')
           end.

Notation "x <- c ;; k" := (bind c (fun x => k))
  (at level 61, c at next level, right associativity).
Notation "c ;;; k" := (bind c (fun _ => k))
  (at level 61, right associativity).

Definition raise {A} (e : Exn) : M A := fun w => (Raised e, w).

(** [try: body except Exception as e: handler(e)] *)
Definition try_except (body : M unit) (handler : Exn -> M unit) : M unit :=
  fun w => match body w with
           | (Returned a, w') => (Returned a, w')
           | (Raised e, w') => handler e w'
           end.

Definition lift {A} (r : Exn + A) : M A :=
  match r with
  | inr a => ret a
  | inl e => raise e
  end.

Definition get_frame : M DataFrame := fun w => (Returned (data_frame w), w).

Definition put_frame (df : DataFrame) : M unit :=
  fun w => (Returned tt,
            mkWorld df (entropy w) (drawn w) (fake w) (called w)
                    (stdout w) (disk w)).

(** [self.data_frame[c]] *)
Definition df_getitem (c : string) : M (list Value) :=
  df <- get_frame ;; lift (getitem df c).

(** [self.data_frame[c] = vs] *)
Definition df_setitem (c : string) (vs : list Value) : M unit :=
  df <- get_frame ;; df' <- lift (setitem df c vs) ;; put_frame df'.

(** [self.data_frame.drop(columns=[c], inplace=True)] *)
Definition df_drop (c : string) : M unit :=
  df <- get_frame ;; df' <- lift (drop df c) ;; put_frame df'.

(** What [to_csv] writes to [path]: the CSV text, or the archive that the
    compression inferred from the name makes of it at the time of the
    call. *)
Definition file_content (path : string) (w : World) : string :=
  match infer_compression path with
  | None => Csv.to_csv (data_frame w)
  | Some method =>
      archive (disk w) method (clock (disk w)) (Csv.to_csv (data_frame w))
  end.

(** [self.data_frame.to_csv(path, index=False)] *)
Definition df_to_csv (path : string) : M unit :=
  fun w =>
    let (failure, fs) := write_file (disk w) path (file_content path w) in
    let w' := mkWorld (data_frame w) (entropy w) (drawn w) (fake w)
                      (called w) (stdout w) fs in
    match failure with
    | None => (Returned tt, w')
    | Some e => (Raised e, w')
    end.

Definition print (l : Line) : M unit :=
  fun w => (Returned tt,
            mkWorld (data_frame w) (entropy w) (drawn w) (fake w) (called w)
                    (stdout w ++ [l])%list (disk w)).

(** One element of [random.choices(population, k=...)]: the element at
    index [floor(random() * n)], an index below [n] taken from the next
    number drawn.  The toolkit only draws from its 62-character
    alphabet. *)
Definition choice (population : string) : M ascii :=
  fun w =>
    let i := (entropy w (drawn w) mod String.length population)%nat in
    (Returned (nth i (list_ascii_of_string population) "000"%char),
     mkWorld (data_frame w) (entropy w) (S (drawn w)) (fake w) (called w)
             (stdout w) (disk w)).

(** [''.join(random.choices(population, k=k))] *)
Fixpoint choices (population : string) (k : nat) : M string :=
  match k with
  | O => ret EmptyString
  | S k' =>
      c <- choice population ;;
      s <- choices population k' ;;
      ret (String c s)
  end.

(** One call of a [Faker] provider. *)
Definition call (p : Provider) : M string :=
  fun w =>
    (Returned (fake w p (called w)),
     mkWorld (data_frame w) (entropy w) (drawn w) (fake w) (S (called w))
             (stdout w) (disk w)).

(** [[g() for _ in range(n)]] *)
Fixpoint comprehension (g : M string) (n : nat) : M (list Value) :=
  match n with
  | O => ret []
  | S n' =>
      v <- g ;;
      vs <- comprehension g n' ;;
      ret (VStr v :: vs)
  end.

(* ================================================================== *)
(** ** class DataPrivacyToolkit *)
(* ================================================================== *)

Module Toolkit.

(** [lambda x: hashlib.sha256(str(x).encode()).hexdigest()] *)
Definition sha256_hex (x : Value) : Value :=
  VStr (SHA256.hexdigest (encode (str x))).

Definition hash_data (column_name : string) : M unit :=
  try_except
    (col <- df_getitem column_name ;;
     df_setitem column_name (apply sha256_hex col) ;;;
     print (Hashed column_name))
    (fun e => print (ErrorHashing column_name e)).

(** The [for entry in ...unique()] loop filling [pseudonyms]. *)
Fixpoint fill_pseudonyms (entries : list Value) (pseudonyms : dict Value string)
  : M (dict Value string) :=
  match entries with
  | [] => ret pseudonyms
  | entry :: entries' =>
      p <- choices (ascii_letters ++ digits) 10 ;;
      fill_pseudonyms entries' (dict_set Value_eqb pseudonyms entry p)
  end.

Definition pseudonymize_data (column_name : string) : M unit :=
  try_except
    (col <- df_getitem column_name ;;
     pseudonyms <- fill_pseudonyms (unique col) [] ;;
     col' <- df_getitem column_name ;;
     vs <- lift (map_dict pseudonyms col') ;;
     df_setitem column_name vs ;;;
     print (Pseudonymized column_name))
    (fun e => print (ErrorPseudonymizing column_name e)).

Definition data_generator : dict string (M string) :=
  [ ("name", call name);
    ("address", call address);
    ("email", call email);
    ("credit_card", call credit_card_number);
    ("phone", call phone_number) ].

Definition unsupported (data_type : string) : string :=
  "Unsupported data type '" ++ data_type ++ "'. Supported types are: "
  ++ join ", " (dict_keys data_generator) ++ ".".

(** The default [data_type='name'] is left to the caller. *)
Definition create_fake_data (column_name data_type : string) : M unit :=
  try_except
    (match dict_get String.eqb data_generator data_type with
     | Some g =>
         df <- get_frame ;;
         vs <- comprehension g (len df) ;;
         df_setitem column_name vs ;;;
         print (Replaced column_name data_type)
     | None => raise (ValueError (unsupported data_type))
     end)
    (fun e => print (ErrorCreatingFake column_name e)).

Definition drop_sensitive_data (column_name : string) : M unit :=
  try_except
    (df_drop column_name ;;;
     print (Dropped column_name))
    (fun e => match e with
              | KeyError _ => print (ErrorNoColumn column_name)
              | _ => print (ErrorDropping column_name e)
              end).

Definition save_anonymized_data (file_name : string) : M unit :=
  try_except
    (df_to_csv file_name ;;;
     print (Saved file_name))
    (fun e => print (ErrorSaving file_name e)).

End Toolkit.
Import Toolkit.

(** The sample of the [__main__] block. *)
Definition sample : DataFrame :=
  mkFrame 3
    [ ("Name", [VStr "Alice"; VStr "Bob"; VStr "Charlie"]);
      ("Email", [VStr "alice@example.com"; VStr "bob@example.com";
                 VStr "charlie@example.com"]);
      ("Phone", [VStr "123-456-7890"; VStr "234-567-8901";
                 VStr "345-678-9012"]) ].

Definition sample_fake (p : Provider) (i : nat) : string :=
  match p with
  | name => "Jane Doe"
  | address => "1 Main Street"
  | email => "jane@example.org"
  | credit_card_number => "4000000000000002"
  | phone_number => "555-01" ++ NilZero.string_of_uint (Nat.to_uint i)
  end.

(** A disk on which writes to [/proc/x.csv] cannot be opened and writes
    to [/quota/x.csv] fail after ten characters; its compressors only
    stamp the text with the time. *)
Definition sample_disk (files : dict string string) : FileSystem :=
  mkFS files ["/proc/x.csv"; "/quota/x.csv"]
       (fun path => if String.eqb path "/quota/x.csv" then Some 10%nat
                    else None)
       (fun _ time text => NilZero.string_of_uint (Nat.to_uint time) ++ text)
       0.

Definition sample_world : World :=
  mkWorld sample (fun i => (7 * i + 3)%nat) 0 sample_fake 0 []
          (sample_disk []).

Definition main : M unit :=
  hash_data "Email" ;;;
  pseudonymize_data "Name" ;;;
  create_fake_data "Phone" "phone" ;;;
  save_anonymized_data "anonymized_data.csv".

(* ================================================================== *)
(** ** Vocabulary of the specification *)
(* ================================================================== *)

(** The five operations of the specification and the methods that
    implement them. *)
Inductive Operation : Type :=
| hash (column : string)
| pseudonymize (column : string)
| substitute_with_synthetic (column kind : string)
| drop_column (column : string)
| export (destination : string).

Definition run (op : Operation) : M unit :=
  match op with
  | hash c => hash_data c
  | pseudonymize c => pseudonymize_data c
  | substitute_with_synthetic c k => create_fake_data c k
  | drop_column c => drop_sensitive_data c
  | export f => save_anonymized_data f
  end.

(** A batch of calls, one statement after the other. *)
Fixpoint run_all (ops : list Operation) : M unit :=
  match ops with
  | [] => ret tt
  | op :: ops' => run op ;;; run_all ops'
  end.

(** The registered tags. *)
Definition registered : list string :=
  ["name"; "address"; "email"; "credit_card"; "phone"].

(** The provider registered under a tag. *)
Definition provider_of (kind : string) : option Provider :=
  if String.eqb "name" kind then Some name
  else if String.eqb "address" kind then Some address
  else if String.eqb "email" kind then Some email
  else if String.eqb "credit_card" kind then Some credit_card_number
  else if String.eqb "phone" kind then Some phone_number
  else None.

(** A lowercase hexadecimal digit. *)
Definition lower_hex (c : ascii) : bool :=
  let n := nat_of_ascii c in
  ((48 <=? n) && (n <=? 57) || (97 <=? n) && (n <=? 102))%nat.

(** The shape of a SHA-256 hex digest. *)
Definition is_hexdigest (s : string) : Prop :=
  String.length s = 64%nat /\
  Forall (fun c => lower_hex c = true) (list_ascii_of_string s).

(** A character of A-Z, a-z, 0-9. *)
Definition alphanumeric (c : ascii) : bool :=
  let n := nat_of_ascii c in
  ((48 <=? n) && (n <=? 57) || (65 <=? n) && (n <=? 90)
   || (97 <=? n) && (n <=? 122))%nat.

(** The shape of a pseudonym. *)
Definition is_pseudonym (s : string) : Prop :=
  String.length s = 10%nat /\
  Forall (fun c => alphanumeric c = true) (list_ascii_of_string s).

(** The world [w] with [lines] printed after what it already shows. *)
Definition printed (w : World) (lines : list Line) : World :=
  mkWorld (data_frame w) (entropy w) (drawn w) (fake w) (called w)
          (stdout w ++ lines)%list (disk w).

(** The world [w] holding the frame [df]. *)
Definition with_frame (w : World) (df : DataFrame) : World :=
  mkWorld df (entropy w) (drawn w) (fake w) (called w) (stdout w) (disk w).

(** The world [w] after [random] has drawn [n] numbers in all. *)
Definition with_drawn (w : World) (n : nat) : World :=
  mkWorld (data_frame w) (entropy w) n (fake w) (called w) (stdout w) (disk w).

(** The world [w] after [n] calls to [Faker] providers in all. *)
Definition with_called (w : World) (n : nat) : World :=
  mkWorld (data_frame w) (entropy w) (drawn w) (fake w) n (stdout w) (disk w).

(** The string that [k] draws starting at position [from] select. *)
Fixpoint draws (population : string) (numbers : nat -> nat) (from k : nat)
  : string :=
  match k with
  | O => EmptyString
  | S k' =>
      String (nth (numbers from mod String.length population)%nat
                  (list_ascii_of_string population) "000"%char)
             (draws population numbers (S from) k')
  end.

(** The dictionary that the loop of [pseudonymize_data] builds. *)
Fixpoint filled (numbers : nat -> nat) (from : nat) (entries : list Value)
  (d : dict Value string) : dict Value string :=
  match entries with
  | [] => d
  | entry :: entries' =>
      filled numbers (from + 10) entries'
        (dict_set Value_eqb d entry
           (draws (ascii_letters ++ digits) numbers from 10))
  end.


(** The values that [n] successive calls of a provider return, the
    first of them being call number [from]. *)
Fixpoint generated (outputs : nat -> string) (from n : nat) : list Value :=
  match n with
  | O => []
  | S n' => VStr (outputs from) :: generated outputs (S from) n'
  end.

(** The report of a call that failed on the absent column [c]. *)
Definition column_not_found_report (c : string) (l : Line) : Prop :=
  l = ErrorHashing c (KeyError c) \/
  l = ErrorPseudonymizing c (KeyError c) \/
  l = ErrorCreatingFake c (KeyError c) \/
  l = ErrorNoColumn c.

(** The operation fails on the absent column [c]: it prints such a
    report and changes nothing else. *)
Definition column_not_found (op : Operation) (c : string) (w : World) : Prop :=
  exists l, run op w = (Returned tt, printed w [l]) /\
            column_not_found_report c l.

(** [drop_column] succeeds on [c] in [w] and leaves the world [w1]. *)
Definition dropped (w : World) (c : string) (w1 : World) : Prop :=
  run (drop_column c) w = (Returned tt, w1) /\
  stdout w1 = (stdout w ++ [Dropped c])%list.

(** Once [drop_column] has succeeded on [c], the operation [op] fails on
    the absent column. *)
Definition fails_after_drop (w : World) (c : string) (op : Operation) : Prop :=
  forall w1, dropped w c w1 -> column_not_found op c w1.


(** The world [w] with the disk [fs]. *)
Definition with_disk (w : World) (fs : FileSystem) : World :=
  mkWorld (data_frame w) (entropy w) (drawn w) (fake w) (called w)
          (stdout w) fs.

(** The invariant [wf], as a test. *)
Fixpoint distinct (ls : list string) : bool :=
  match ls with
  | [] => true
  | l :: ls' => negb (existsb (String.eqb l) ls') && distinct ls'
  end.

Definition wfb (df : DataFrame) : bool :=
  distinct (labels df) &&
  forallb (fun c => Nat.eqb (List.length (snd c)) (nrows df)) (columns df).

(** No carriage return in a string. *)
Fixpoint no_cr (s : string) : bool :=
  match s with
  | EmptyString => true
  | String c s' => negb (Ascii.eqb c CR) && no_cr s'
  end.





(** The records of a table: its labels, then its rows. *)
Definition records (df : DataFrame) : list (list string) :=
  labels df :: Csv.rows df.


(** A one-row table whose cell is an address on two lines. *)
Definition address_frame : DataFrame :=
  mkFrame 1
    [("Address", [VStr ("1 Main Street" ++ String LF "Springfield, IL 62701")])].

(** The column an operation works on, if it works on one. *)
Definition target (op : Operation) : option string :=
  match op with
  | hash c | pseudonymize c | substitute_with_synthetic c _ | drop_column c =>
      Some c
  | export _ => None
  end.

(** The sample world with a file already on its disk. *)
Definition archive_world : World :=
  with_disk sample_world
    (sample_disk [("notes.txt", "keep"); ("anonymized_data.csv", "old");
                  ("/quota/x.csv", "old")]).

(** A table with a column that holds both missing-value markers. *)
Definition missing_frame : DataFrame :=
  mkFrame 5 [("Notes", [VNone; VNaN; VStr "a"; VNone; VNaN])].

Definition missing_world : World := with_frame sample_world missing_frame.



(** A column whose length is not the number of rows: no assignment to
    it gets through. *)
Definition ragged (df : DataFrame) (col : list Value) : option Exn :=
  if Nat.eqb (List.length col) (nrows df) then None
  else Some (ValueError "Length of values does not match length of index").

(** The failure that an operation meets in a world, if any: the column
    is not in the table; the column holds both missing markers, for
    [pseudonymize]; the kind is not registered; the destination cannot be
    written. *)
Definition failure (op : Operation) (w : World) : option Exn :=
  let df := data_frame w in
  match op with
  | hash c =>
      match lookup (columns df) c with
      | None => Some (KeyError c)
      | Some col => ragged df col
      end
  | pseudonymize c =>
      match lookup (columns df) c with
      | None => Some (KeyError c)
      | Some col =>
          if mixed_missing col then Some InvalidIndexError else ragged df col
      end
  | substitute_with_synthetic c kind =>
      match provider_of kind with
      | None => Some (ValueError (unsupported kind))
      | Some _ => None
      end
  | drop_column c =>
      match lookup (columns df) c with
      | None => Some (KeyError c)
      | Some _ => None
      end
  | export f =>
      if existsb (String.eqb f) (unwritable (disk w)) then Some (OSError f)
      else None
  end.


(** A report of a failure. *)
Definition is_error (l : Line) : bool :=
  match l with
  | ErrorHashing _ _ | ErrorPseudonymizing _ _ | ErrorCreatingFake _ _
  | ErrorNoColumn _ | ErrorDropping _ _ | ErrorSaving _ _ => true
  | Hashed _ | Pseudonymized _ | Replaced _ _ | Dropped _ | Saved _ => false
  end.

(** The world that a batch of calls leaves. *)
Definition after (ops : list Operation) (w : World) : World :=
  snd (run_all ops w).

(** What an operation may touch besides the table and the output: only
    [pseudonymize] draws random numbers, only [substitute_with_synthetic]
    calls [Faker], only [export] writes, and it writes one file. *)
Definition footprint (op : Operation) (w w' : World) : Prop :=
  match op with
  | hash _ | drop_column _ =>
      drawn w' = drawn w /\ called w' = called w /\ disk w' = disk w
  | pseudonymize _ => called w' = called w /\ disk w' = disk w
  | substitute_with_synthetic _ _ => drawn w' = drawn w /\ disk w' = disk w
  | export f =>
      drawn w' = drawn w /\ called w' = called w /\
      data_frame w' = data_frame w /\
      unwritable (disk w') = unwritable (disk w) /\
      forall g, String.eqb g f = false ->
        dict_get String.eqb (files (disk w')) g
        = dict_get String.eqb (files (disk w)) g
  end.

(* ================================================================== *)
(** ** Tests of the models against known outputs *)
(* ================================================================== *)

Arguments SHA256.hexdigest : simpl never.
Arguments SHA256.sha256 : simpl never.

Example sha256_constants :
  List.length SHA256.K = 64%nat /\
  nth 0 SHA256.K 0 = 0x428a2f98 /\ nth 63 SHA256.K 0 = 0xc67178f2 /\
  SHA256.ha SHA256.H0 = 0x6a09e667 /\ SHA256.hh SHA256.H0 = 0x5be0cd19.
Proof. repeat split; reflexivity. Qed.

Example sha256_empty :
  SHA256.hexdigest (encode EmptyString) =
  "e3b0c44298fc1c149afbf4c8996fb92427ae41e4649b934ca495991b7852b855".
Proof. vm_compute. reflexivity. Qed.

Example sha256_abc :
  SHA256.hexdigest (encode "abc") =
  "ba7816bf8f01cfea414140de5dae2223b00361a396177a9cb410ff61f20015ad".
Proof. vm_compute. reflexivity. Qed.

Example sha256_two_blocks :
  SHA256.hexdigest
    (encode "aaaaaaaaaaaaaaaaaaaaaaaaaaaaaaaaaaaaaaaaaaaaaaaaaaaaaaaa") =
  "b35439a4ac6f0948b6d6f9e3c6af0f5f590ce20f1bde7090ef7970686ec6738a".
Proof. vm_compute. reflexivity. Qed.

(** [None] and [nan] are hashed through their string forms. *)
Example sha256_missing :
  map sha256_hex [VNone; VNaN; VInt (-120)] =
  [ VStr "dc937b59892604f5a86ac96936cd7ff09e25f18ae6b758e8014a24c7fa039e91";
    VStr "9b2d5b4678781e53038e91ea5324530a03f27dc1d0e5f6c9bc9d493a23be9de0";
    sha256_hex (VStr "-120") ].
Proof. vm_compute. reflexivity. Qed.

(** Records as [csv.writer] of CPython 3.11 writes them in this dialect. *)
Example writer_matches_python :
  map Csv.writerow
    [ ["a"; "b"]; [EmptyString]; []; [EmptyString; EmptyString];
      ["x,y"]; [String "x" (String DQUOTE "y")];
      [String "x" (String LF "y")]; [String "x" (String CR "y")] ]
  = [ String "a" (String "," (String "b" (String LF EmptyString)));
      String DQUOTE (String DQUOTE (String LF EmptyString));
      String LF EmptyString;
      String "," (String LF EmptyString);
      String DQUOTE ("x,y" ++ String DQUOTE (String LF EmptyString));
      String DQUOTE ("x" ++ String DQUOTE (String DQUOTE
         ("y" ++ String DQUOTE (String LF EmptyString))));
      String DQUOTE ("x" ++ String LF ("y" ++
         String DQUOTE (String LF EmptyString)));
      String "x" (String CR (String "y" (String LF EmptyString))) ].
Proof. reflexivity. Qed.

(** Texts as [csv.reader] of CPython 3.11 reads them. *)
Example reader_matches_python :
  map Csv.reader
    [ EmptyString; String LF EmptyString; "a";
      "a,b" ++ String CR (String LF ("c" ++ String CR ("d" ++ String LF EmptyString)));
      String "a" (String DQUOTE ("b,c" ++ String LF EmptyString));
      String DQUOTE ("a" ++ String DQUOTE ("b,c" ++ String LF EmptyString));
      String DQUOTE ("a" ++ String LF EmptyString);
      String CR (String CR (String LF (String LF "x")));
      "a," ++ String LF EmptyString ]
  = [ []; [[]]; [["a"]];
      [["a"; "b"]; ["c"]; ["d"]];
      [[String "a" (String DQUOTE "b"); "c"]];
      [["ab"; "c"]];
      [[String "a" (String LF EmptyString)]];
      [[]; []; []; ["x"]];
      [["a"; EmptyString]] ].
Proof. reflexivity. Qed.
Example main_runs :
  let w := snd (main sample_world) in
  stdout w = [ Hashed "Email"; Pseudonymized "Name";
               Replaced "Phone" "phone"; Saved "anonymized_data.csv" ]
  /\ getitem (data_frame w) "Name"
     = inr [VStr "dkryFMT07e"; VStr "lszGNU18fm"; VStr "tAHOV29gnu"]
  /\ getitem (data_frame w) "Phone"
     = inr [VStr "555-010"; VStr "555-011"; VStr "555-012"]
  /\ option_map (fun text => List.length (Csv.reader text))
       (dict_get String.eqb (files (disk w)) "anonymized_data.csv")
     = Some 4%nat.
Proof. vm_compute. repeat split; reflexivity. Qed.

(* ================================================================== *)
(** ** Facts about frames *)
(* ================================================================== *)

Lemma lookup_None (cols : list (string * list Value)) (c : string) :
  lookup cols c = None <-> ~ In c (map fst cols).
Proof.
  induction cols as [|[l vs] cols IH]; simpl.
  - tauto.
  - destruct (String.eqb_spec l c) as [->|Hne].
    + split; [discriminate | tauto].
    + rewrite IH. tauto.
Qed.

Lemma lookup_Some (cols : list (string * list Value)) (c : string) :
  In c (map fst cols) -> exists vs, lookup cols c = Some vs.
Proof.
  intros Hin. destruct (lookup cols c) as [vs|] eqn:E.
  - now exists vs.
  - apply lookup_None in E. contradiction.
Qed.

Lemma lookup_In (cols : list (string * list Value)) (c : string) vs :
  lookup cols c = Some vs -> In (c, vs) cols.
Proof.
  induction cols as [|[l old] cols IH]; simpl; [discriminate|].
  destruct (String.eqb_spec l c) as [->|Hne].
  - intros [= ->]. now left.
  - intros H. right. auto.
Qed.

Lemma lookup_length (df : DataFrame) (c : string) vs :
  wf df -> lookup (columns df) c = Some vs -> List.length vs = nrows df.
Proof.
  intros [_ Hlen] H. apply lookup_In in H.
  rewrite Forall_forall in Hlen. exact (Hlen _ H).
Qed.

Lemma lookup_assign_same cols c vs : lookup (assign cols c vs) c = Some vs.
Proof.
  induction cols as [|[l old] cols IH]; simpl.
  - now rewrite String.eqb_refl.
  - destruct (String.eqb_spec l c) as [->|Hne]; simpl.
    + now rewrite String.eqb_refl.
    + apply String.eqb_neq in Hne. now rewrite Hne.
Qed.

Lemma lookup_assign_other cols c c' vs :
  c' <> c -> lookup (assign cols c vs) c' = lookup cols c'.
Proof.
  intros Hne. induction cols as [|[l old] cols IH]; simpl.
  - apply not_eq_sym, String.eqb_neq in Hne. now rewrite Hne.
  - destruct (String.eqb_spec l c) as [->|Hlc]; simpl.
    + apply not_eq_sym, String.eqb_neq in Hne. now rewrite Hne.
    + now rewrite IH.
Qed.

Lemma labels_assign_present cols c vs old :
  lookup cols c = Some old -> map fst (assign cols c vs) = map fst cols.
Proof.
  induction cols as [|[l o] cols IH]; simpl; [discriminate|].
  destruct (String.eqb_spec l c) as [->|Hlc]; simpl.
  - reflexivity.
  - intros H. now rewrite IH.
Qed.

Lemma labels_assign_absent cols c vs :
  lookup cols c = None -> assign cols c vs = (cols ++ [(c, vs)])%list.
Proof.
  induction cols as [|[l o] cols IH]; simpl; [reflexivity|].
  destruct (String.eqb_spec l c) as [->|Hlc]; [discriminate|].
  intros H. now rewrite IH.
Qed.

Lemma Value_eqb_eq (a b : Value) : Value_eqb a b = true <-> a = b.
Proof.
  destruct a, b; simpl; split; try congruence; try reflexivity.
  - intros H. apply Z.eqb_eq in H. now subst.
  - intros [= ->]. apply Z.eqb_refl.
  - intros H. apply String.eqb_eq in H. now subst.
  - intros [= ->]. apply String.eqb_refl.
Qed.

Lemma Value_eqb_refl (a : Value) : Value_eqb a a = true.
Proof. now apply Value_eqb_eq. Qed.

(* ================================================================== *)
(** ** What each method does, case by case *)
(* ================================================================== *)

Lemma hash_data_present (w : World) (c : string) (col : list Value) :
  lookup (columns (data_frame w)) c = Some col ->
  List.length col = nrows (data_frame w) ->
  hash_data c w =
  (Returned tt,
   printed (with_frame w (mkFrame (nrows (data_frame w))
              (assign (columns (data_frame w)) c (apply sha256_hex col))))
           [Hashed c]).
Proof.
  intros Hc Hlen.
  unfold hash_data, try_except, bind, df_getitem, df_setitem, get_frame,
    lift, getitem, setitem, apply.
  cbn. rewrite Hc. cbn. rewrite length_map, Hlen, Nat.eqb_refl. reflexivity.
Qed.

Lemma hash_data_absent (w : World) (c : string) :
  lookup (columns (data_frame w)) c = None ->
  hash_data c w = (Returned tt, printed w [ErrorHashing c (KeyError c)]).
Proof.
  intros Hc.
  unfold hash_data, try_except, bind, df_getitem, get_frame, lift, getitem.
  cbn. rewrite Hc. reflexivity.
Qed.

Lemma hash_data_mismatch (w : World) (c : string) (col : list Value) :
  lookup (columns (data_frame w)) c = Some col ->
  Nat.eqb (List.length col) (nrows (data_frame w)) = false ->
  hash_data c w =
  (Returned tt,
   printed w
     [ErrorHashing c
        (ValueError "Length of values does not match length of index")]).
Proof.
  intros Hc Hlen.
  unfold hash_data, try_except, bind, df_getitem, df_setitem, get_frame,
    lift, getitem, setitem, apply.
  cbn. rewrite Hc. cbn. rewrite length_map, Hlen. reflexivity.
Qed.

Lemma distinct_NoDup (ls : list string) : distinct ls = true -> NoDup ls.
Proof.
  induction ls as [|l ls IH]; simpl; intros H; constructor.
  - apply andb_prop in H as [H _]. intros Hin.
    apply negb_true_iff in H.
    assert (existsb (String.eqb l) ls = true) as E.
    { apply existsb_exists. exists l. split; [assumption | apply String.eqb_refl]. }
    congruence.
  - apply andb_prop in H as [_ H]. auto.
Qed.

Lemma wfb_wf (df : DataFrame) : wfb df = true -> wf df.
Proof.
  unfold wfb, wf. intros H. apply andb_prop in H as [Hd Hl]. split.
  - now apply distinct_NoDup.
  - apply Forall_forall. intros c Hc.
    rewrite forallb_forall in Hl. apply Nat.eqb_eq. now apply Hl.
Qed.

(* ================================================================== *)
(** ** Digests *)
(* ================================================================== *)

Lemma length_string_of_list_ascii (l : list ascii) :
  String.length (string_of_list_ascii l) = List.length l.
Proof. induction l; simpl; congruence. Qed.

Lemma hexdigit_lower (n : Z) : lower_hex (SHA256.hexdigit n) = true.
Proof.
  unfold SHA256.hexdigit.
  assert (Z.to_nat (Z.land n 0xf) < 16)%nat as Hlt.
  { change 0xf with (Z.ones 4). rewrite Z.land_ones by lia.
    pose proof (Z.mod_pos_bound n (2 ^ 4) ltac:(lia)). lia. }
  remember (Z.to_nat (Z.land n 0xf)) as k eqn:Hk. clear Hk.
  do 16 (destruct k as [|k]; [reflexivity|]). lia.
Qed.

Lemma hex_bytes_lower (bs : list Z) :
  Forall (fun c => lower_hex c = true) (flat_map SHA256.hex_byte bs).
Proof.
  induction bs as [|b bs IH]; simpl.
  - constructor.
  - constructor; [apply hexdigit_lower|].
    constructor; [apply hexdigit_lower | exact IH].
Qed.

Lemma hexdigest_shape (msg : list byte) : is_hexdigest (SHA256.hexdigest msg).
Proof.
  unfold is_hexdigest, SHA256.hexdigest. split.
  - rewrite length_string_of_list_ascii. unfold SHA256.digest.
    generalize (SHA256.sha256 msg). intros h. reflexivity.
  - rewrite list_ascii_of_string_of_list_ascii. apply hex_bytes_lower.
Qed.

(* ================================================================== *)
(** ** Pseudonyms *)
(* ================================================================== *)

Lemma choices_run (population : string) (k : nat) (w : World) :
  choices population k w =
  (Returned (draws population (entropy w) (drawn w) k),
   with_drawn w (drawn w + k)).
Proof.
  revert w. induction k as [|k IH]; intros w.
  - simpl. unfold ret, with_drawn. rewrite Nat.add_0_r. now destruct w.
  - simpl. unfold bind, choice at 1. rewrite IH. simpl.
    unfold ret, with_drawn. simpl. now rewrite Nat.add_succ_r.
Qed.

Lemma fill_pseudonyms_run (entries : list Value) (d : dict Value string)
  (w : World) :
  fill_pseudonyms entries d w =
  (Returned (filled (entropy w) (drawn w) entries d),
   with_drawn w (drawn w + 10 * List.length entries)).
Proof.
  revert d w. induction entries as [|e es IH]; intros d w.
  - simpl. unfold ret, with_drawn. rewrite Nat.add_0_r. now destruct w.
  - change (fill_pseudonyms (e :: es) d w)
      with (bind (choices (ascii_letters ++ digits) 10)
              (fun p => fill_pseudonyms es (dict_set Value_eqb d e p)) w).
    unfold bind. rewrite choices_run, IH.
    change (filled (entropy w) (drawn w) (e :: es) d)
      with (filled (entropy w) (drawn w + 10) es
              (dict_set Value_eqb d e
                 (draws (ascii_letters ++ digits) (entropy w) (drawn w) 10))).
    unfold with_drawn. cbn [data_frame entropy drawn fake called stdout disk].
    do 2 f_equal. cbn [List.length]. lia.
Qed.

Arguments choices : simpl never.
Arguments draws : simpl never.
Arguments fill_pseudonyms : simpl never.
Arguments filled : simpl never.

(** The three ways a call of [pseudonymize_data] on a present column can
    go, after the loop has drawn its numbers. *)
Lemma pseudonymize_data_run (w : World) (c : string) (col : list Value) :
  lookup (columns (data_frame w)) c = Some col ->
  pseudonymize_data c w =
  (Returned tt,
   let d := filled (entropy w) (drawn w) (unique col) [] in
   let w1 := with_drawn w (drawn w + 10 * List.length (unique col)) in
   if mixed_missing (dict_keys d)
   then printed w1 [ErrorPseudonymizing c InvalidIndexError]
   else if Nat.eqb (List.length col) (nrows (data_frame w))
   then printed
          (with_frame w1
             (mkFrame (nrows (data_frame w))
                (assign (columns (data_frame w)) c (mapped d col))))
          [Pseudonymized c]
   else printed w1
          [ErrorPseudonymizing c
             (ValueError "Length of values does not match length of index")]).
Proof.
  intros Hc.
  unfold pseudonymize_data, try_except, bind at 1.
  unfold df_getitem at 1, bind at 1, get_frame, lift, getitem.
  rewrite Hc. unfold ret at 1. unfold bind at 1.
  rewrite fill_pseudonyms_run.
  unfold bind, df_getitem, df_setitem, bind, get_frame, lift, getitem, setitem,
    map_dict.
  cbn [with_drawn data_frame]. rewrite Hc. cbn zeta.
  destruct (mixed_missing
              (dict_keys (filled (entropy w) (drawn w) (unique col) [])));
    [reflexivity|].
  cbn [ret]. unfold mapped at 1. rewrite length_map.
  cbn [with_drawn data_frame].
  destruct (Nat.eqb (List.length col) (nrows (data_frame w))); reflexivity.
Qed.

Lemma pseudonymize_data_absent (w : World) (c : string) :
  lookup (columns (data_frame w)) c = None ->
  pseudonymize_data c w =
  (Returned tt, printed w [ErrorPseudonymizing c (KeyError c)]).
Proof.
  intros Hc.
  unfold pseudonymize_data, try_except, bind, df_getitem, get_frame, lift,
    getitem.
  cbn. rewrite Hc. reflexivity.
Qed.

Lemma alphabet_alphanumeric :
  Forall (fun c => alphanumeric c = true)
         (list_ascii_of_string (ascii_letters ++ digits)).
Proof. apply Forall_forall, forallb_forall. reflexivity. Qed.

Lemma length_list_ascii_of_string (s : string) :
  List.length (list_ascii_of_string s) = String.length s.
Proof. induction s; simpl; congruence. Qed.

Lemma draws_shape (population : string) (numbers : nat -> nat) (from k : nat) :
  population <> EmptyString ->
  String.length (draws population numbers from k) = k /\
  Forall (fun c => In c (list_ascii_of_string population))
         (list_ascii_of_string (draws population numbers from k)).
Proof.
  intros Hne. revert from. induction k as [|k IH]; intros from; simpl.
  - split; [reflexivity | constructor].
  - destruct (IH (S from)) as [Hl Hin]. split; [congruence|].
    constructor; [|exact Hin].
    apply nth_In. rewrite length_list_ascii_of_string.
    apply Nat.mod_upper_bound. destruct population; [congruence | discriminate].
Qed.

Lemma draws_pseudonym (numbers : nat -> nat) (from : nat) :
  is_pseudonym (draws (ascii_letters ++ digits) numbers from 10).
Proof.
  destruct (draws_shape (ascii_letters ++ digits) numbers from 10) as [Hl Hin];
    [discriminate|].
  split; [exact Hl|].
  pose proof alphabet_alphanumeric as Ha. rewrite Forall_forall in Ha.
  eapply Forall_impl; [|exact Hin]. intros a. apply Ha.
Qed.

Lemma dict_get_set_same (d : dict Value string) k p :
  dict_get Value_eqb (dict_set Value_eqb d k p) k = Some p.
Proof.
  induction d as [|[k' p'] d IH]; simpl.
  - now rewrite Value_eqb_refl.
  - destruct (Value_eqb k' k) eqn:E; simpl; rewrite E; [reflexivity | exact IH].
Qed.

Lemma dict_get_set_other (d : dict Value string) k k' p :
  k' <> k ->
  dict_get Value_eqb (dict_set Value_eqb d k p) k' = dict_get Value_eqb d k'.
Proof.
  intros Hne. induction d as [|[k0 p0] d IH]; simpl.
  - destruct (Value_eqb k k') eqn:E; [|reflexivity].
    apply Value_eqb_eq in E. congruence.
  - destruct (Value_eqb k0 k) eqn:E; simpl.
    + apply Value_eqb_eq in E. subst k0.
      destruct (Value_eqb k k') eqn:E'; [|reflexivity].
      apply Value_eqb_eq in E'. congruence.
    + now rewrite IH.
Qed.


Lemma unique_acc_In (vs seen : list Value) (v : Value) :
  In v vs -> existsb (Value_eqb v) seen = false -> In v (unique_acc seen vs).
Proof.
  revert seen. induction vs as [|x vs IH]; intros seen Hin Hseen; simpl.
  - destruct Hin.
  - destruct (existsb (Value_eqb x) seen) eqn:Ex.
    + destruct Hin as [->|Hin]; [congruence | auto].
    + destruct Hin as [->|Hin]; [now left|].
      destruct (Value_eqb v x) eqn:E.
      * apply Value_eqb_eq in E. subst. now left.
      * right. apply IH; [exact Hin|]. simpl. now rewrite E.
Qed.

Lemma unique_In (vs : list Value) (v : Value) : In v vs -> In v (unique vs).
Proof. intros H. now apply unique_acc_In. Qed.

Lemma unique_acc_NoDup (vs seen : list Value) :
  NoDup (unique_acc seen vs) /\
  (forall v, In v (unique_acc seen vs) -> existsb (Value_eqb v) seen = false).
Proof.
  revert seen. induction vs as [|x vs IH]; intros seen; simpl.
  - split; [constructor | intros v []].
  - destruct (existsb (Value_eqb x) seen) eqn:Ex; [apply IH|].
    destruct (IH (x :: seen)) as [Hnd Hout]. split.
    + constructor; [|exact Hnd].
      intros Hin. apply Hout in Hin. simpl in Hin.
      now rewrite Value_eqb_refl in Hin.
    + intros v [<-|Hin]; [exact Ex|].
      apply Hout in Hin. simpl in Hin.
      now apply orb_false_elim in Hin as [_ Hin].
Qed.

Lemma unique_acc_incl (vs seen : list Value) (v : Value) :
  In v (unique_acc seen vs) -> In v vs.
Proof.
  revert seen. induction vs as [|x vs IH]; intros seen; simpl; [tauto|].
  destruct (existsb (Value_eqb x) seen).
  - intros H. right. eauto.
  - intros [H|H]; [now left | right; eauto].
Qed.

Lemma existsb_Value (v : Value) (vs : list Value) :
  existsb (Value_eqb v) vs = true <-> In v vs.
Proof.
  rewrite existsb_exists. split.
  - intros (x & Hx & E). apply Value_eqb_eq in E. now subst.
  - intros H. exists v. split; [exact H | apply Value_eqb_refl].
Qed.

Lemma mixed_missing_unique (vs : list Value) :
  mixed_missing (unique vs) = mixed_missing vs.
Proof.
  assert (forall v, existsb (Value_eqb v) (unique vs)
                    = existsb (Value_eqb v) vs) as H.
  { intros v. apply Bool.eq_iff_eq_true. rewrite !existsb_Value. split.
    - apply unique_acc_incl.
    - apply unique_In. }
  unfold mixed_missing. now rewrite !H.
Qed.

Lemma dict_keys_set_fresh (d : dict Value string) (k : Value) (p : string) :
  dict_get Value_eqb d k = None ->
  dict_keys (dict_set Value_eqb d k p) = (dict_keys d ++ [k])%list.
Proof.
  unfold dict_keys. induction d as [|[k' p'] d IH]; simpl; [reflexivity|].
  destruct (Value_eqb k' k); [discriminate|].
  intros H. simpl. now rewrite IH.
Qed.

(** The dictionary has one entry per distinct value, in the order of
    first appearance. *)
Lemma dict_keys_filled (numbers : nat -> nat) (entries : list Value) :
  forall from d,
    NoDup entries ->
    (forall e, In e entries -> dict_get Value_eqb d e = None) ->
    dict_keys (filled numbers from entries d) = (dict_keys d ++ entries)%list.
Proof.
  induction entries as [|e es IH]; intros from d Hnd Hfresh.
  - cbn. now rewrite app_nil_r.
  - inversion Hnd as [|? ? Hne Hnd']; subst.
    change (filled numbers from (e :: es) d)
      with (filled numbers (from + 10) es
              (dict_set Value_eqb d e
                 (draws (ascii_letters ++ digits) numbers from 10))).
    rewrite IH; [|exact Hnd'|].
    + rewrite dict_keys_set_fresh by (apply Hfresh; now left).
      now rewrite <- app_assoc.
    + intros e' He'. rewrite dict_get_set_other.
      * apply Hfresh. now right.
      * intros ->. contradiction.
Qed.

Lemma mixed_missing_filled (numbers : nat -> nat) (from : nat)
  (col : list Value) :
  mixed_missing (dict_keys (filled numbers from (unique col) []))
  = mixed_missing col.
Proof.
  rewrite dict_keys_filled.
  - apply mixed_missing_unique.
  - apply unique_acc_NoDup.
  - reflexivity.
Qed.

Lemma pseudonymize_data_present (w : World) (c : string) (col : list Value) :
  lookup (columns (data_frame w)) c = Some col ->
  mixed_missing col = false ->
  List.length col = nrows (data_frame w) ->
  pseudonymize_data c w =
  (Returned tt,
   printed
     (with_frame (with_drawn w (drawn w + 10 * List.length (unique col)))
        (mkFrame (nrows (data_frame w))
           (assign (columns (data_frame w)) c
              (mapped (filled (entropy w) (drawn w) (unique col) []) col))))
     [Pseudonymized c]).
Proof.
  intros Hc Hmix Hlen. rewrite (pseudonymize_data_run w c col Hc). cbn zeta.
  now rewrite mixed_missing_filled, Hmix, Hlen, Nat.eqb_refl.
Qed.

Lemma pseudonymize_data_mixed (w : World) (c : string) (col : list Value) :
  lookup (columns (data_frame w)) c = Some col ->
  mixed_missing col = true ->
  pseudonymize_data c w =
  (Returned tt,
   printed (with_drawn w (drawn w + 10 * List.length (unique col)))
     [ErrorPseudonymizing c InvalidIndexError]).
Proof.
  intros Hc Hmix. rewrite (pseudonymize_data_run w c col Hc). cbn zeta.
  now rewrite mixed_missing_filled, Hmix.
Qed.

Lemma pseudonymize_data_mismatch (w : World) (c : string) (col : list Value) :
  lookup (columns (data_frame w)) c = Some col ->
  mixed_missing col = false ->
  Nat.eqb (List.length col) (nrows (data_frame w)) = false ->
  pseudonymize_data c w =
  (Returned tt,
   printed (with_drawn w (drawn w + 10 * List.length (unique col)))
     [ErrorPseudonymizing c
        (ValueError "Length of values does not match length of index")]).
Proof.
  intros Hc Hmix Hlen. rewrite (pseudonymize_data_run w c col Hc). cbn zeta.
  now rewrite mixed_missing_filled, Hmix, Hlen.
Qed.

(* ================================================================== *)
(** ** Synthetic data and dropped columns *)
(* ================================================================== *)

Lemma comprehension_run (p : Provider) (n : nat) (w : World) :
  comprehension (call p) n w =
  (Returned (generated (fake w p) (called w) n),
   with_called w (called w + n)).
Proof.
  revert w. induction n as [|n IH]; intros w.
  - simpl. unfold ret, with_called. rewrite Nat.add_0_r. now destruct w.
  - simpl. unfold bind, call at 1. rewrite IH. simpl.
    unfold ret, with_called. simpl. now rewrite Nat.add_succ_r.
Qed.

Lemma length_generated outputs from n :
  List.length (generated outputs from n) = n.
Proof. revert from. induction n; intros from; simpl; congruence. Qed.

Lemma nth_error_generated outputs from n i :
  (i < n)%nat ->
  nth_error (generated outputs from n) i = Some (VStr (outputs (from + i)%nat)).
Proof.
  revert from i. induction n as [|n IH]; intros from i Hi; [lia|].
  destruct i as [|i]; simpl.
  - now rewrite Nat.add_0_r.
  - rewrite IH by lia. now rewrite Nat.add_succ_r.
Qed.

Lemma data_generator_provider (kind : string) :
  dict_get String.eqb data_generator kind = option_map call (provider_of kind).
Proof.
  cbv [dict_get data_generator provider_of option_map].
  repeat (match goal with
          | |- context [String.eqb ?a kind] => destruct (String.eqb a kind)
          end; try reflexivity).
Qed.

Lemma provider_of_registered (kind : string) :
  In kind registered <-> exists p, provider_of kind = Some p.
Proof.
  unfold registered, provider_of. split.
  - intros H. simpl in H.
    repeat (destruct H as [<-|H]; [eexists; reflexivity|]). destruct H.
  - intros [p H]. simpl.
    repeat (match type of H with
            | context [String.eqb ?a kind] =>
                destruct (String.eqb_spec a kind); [tauto|]
            end).
    discriminate.
Qed.

Lemma create_fake_data_supported (w : World) (c kind : string) (p : Provider) :
  provider_of kind = Some p ->
  create_fake_data c kind w =
  (Returned tt,
   printed
     (with_frame (with_called w (called w + nrows (data_frame w)))
        (mkFrame (nrows (data_frame w))
           (assign (columns (data_frame w)) c
              (generated (fake w p) (called w) (nrows (data_frame w))))))
     [Replaced c kind]).
Proof.
  intros Hp. unfold create_fake_data, try_except.
  rewrite data_generator_provider, Hp. cbn [option_map].
  unfold bind at 1. unfold get_frame at 1. unfold bind at 1. unfold len.
  rewrite comprehension_run.
  unfold bind, df_setitem, bind, get_frame, lift, setitem.
  cbn. rewrite length_generated, Nat.eqb_refl. reflexivity.
Qed.

Lemma create_fake_data_unsupported (w : World) (c kind : string) :
  provider_of kind = None ->
  create_fake_data c kind w =
  (Returned tt, printed w [ErrorCreatingFake c (ValueError (unsupported kind))]).
Proof.
  intros Hp. unfold create_fake_data, try_except.
  rewrite data_generator_provider, Hp. reflexivity.
Qed.

Lemma drop_present (w : World) (c : string) (col : list Value) :
  lookup (columns (data_frame w)) c = Some col ->
  drop_sensitive_data c w =
  (Returned tt,
   printed
     (with_frame w
        (mkFrame (nrows (data_frame w))
           (filter (fun p => negb (String.eqb (fst p) c))
                   (columns (data_frame w)))))
     [Dropped c]).
Proof.
  intros Hc.
  unfold drop_sensitive_data, try_except, bind, df_drop, bind, get_frame,
    lift, drop.
  cbn. rewrite Hc. reflexivity.
Qed.

Lemma drop_absent (w : World) (c : string) :
  lookup (columns (data_frame w)) c = None ->
  drop_sensitive_data c w = (Returned tt, printed w [ErrorNoColumn c]).
Proof.
  intros Hc.
  unfold drop_sensitive_data, try_except, bind, df_drop, bind, get_frame,
    lift, drop.
  cbn. rewrite Hc. reflexivity.
Qed.

Lemma lookup_filter_same (cols : list (string * list Value)) c :
  lookup (filter (fun p => negb (String.eqb (fst p) c)) cols) c = None.
Proof.
  induction cols as [|[l vs] cols IH]; simpl; [reflexivity|].
  destruct (String.eqb l c) eqn:E; simpl; [exact IH|].
  now rewrite E.
Qed.

Lemma lookup_filter_other (cols : list (string * list Value)) c c' :
  c' <> c ->
  lookup (filter (fun p => negb (String.eqb (fst p) c)) cols) c'
  = lookup cols c'.
Proof.
  intros Hne. induction cols as [|[l vs] cols IH]; simpl; [reflexivity|].
  destruct (String.eqb_spec l c) as [->|Hlc]; simpl.
  - apply not_eq_sym, String.eqb_neq in Hne. now rewrite Hne.
  - now rewrite IH.
Qed.

Lemma labels_filter (cols : list (string * list Value)) c :
  map fst (filter (fun p => negb (String.eqb (fst p) c)) cols)
  = filter (fun l => negb (String.eqb l c)) (map fst cols).
Proof.
  induction cols as [|[l vs] cols IH]; simpl; [reflexivity|].
  destruct (String.eqb l c); simpl; now rewrite IH.
Qed.


Lemma write_file_keeps (fs : FileSystem) (path content : string) :
  unwritable (snd (write_file fs path content)) = unwritable fs /\
  cut (snd (write_file fs path content)) = cut fs.
Proof.
  unfold write_file.
  destruct (existsb (String.eqb path) (unwritable fs));
    [destruct (cut fs path)|]; split; reflexivity.
Qed.


Lemma save_written (w : World) (f : string) :
  existsb (String.eqb f) (unwritable (disk w)) = false ->
  save_anonymized_data f w =
  (Returned tt,
   printed
     (with_disk w
        (stored (disk w)
           (dict_set String.eqb (files (disk w)) f (file_content f w))))
     [Saved f]).
Proof.
  intros Hw. unfold save_anonymized_data, try_except, bind, df_to_csv,
    write_file.
  rewrite Hw. reflexivity.
Qed.

Lemma save_failed (w : World) (f : string) :
  existsb (String.eqb f) (unwritable (disk w)) = true ->
  save_anonymized_data f w =
  (Returned tt,
   printed (with_disk w (snd (write_file (disk w) f (file_content f w))))
     [ErrorSaving f (OSError f)]).
Proof.
  intros Hw. unfold save_anonymized_data, try_except, bind, df_to_csv,
    write_file.
  rewrite Hw. destruct (cut (disk w) f); reflexivity.
Qed.

(* ================================================================== *)
(** ** CSV: reading back what the writer wrote *)
(* ================================================================== *)

Section RoundTrip.

Import Csv.


Lemma append_nil_r (a : string) : a ++ EmptyString = a.
Proof. induction a as [|x a IH]; simpl; [reflexivity | now rewrite IH]. Qed.



















Lemma dict_get_set_file (d : dict string string) (k v : string) :
  dict_get String.eqb (dict_set String.eqb d k v) k = Some v.
Proof.
  induction d as [|[k' v'] d IH]; simpl.
  - now rewrite String.eqb_refl.
  - destruct (String.eqb k' k) eqn:E; simpl; rewrite E; [reflexivity | exact IH].
Qed.

End RoundTrip.

(* ================================================================== *)
(** ** Properties of the specification *)
(* ================================================================== *)





(** What the failing call leaves: its error report, the numbers drawn
    for the three distinct values, and the column as it was. *)
Example pseudonymize_mixed_missing :
  let w' := snd (run (pseudonymize "Notes") missing_world) in
  stdout w' = [ErrorPseudonymizing "Notes" InvalidIndexError] /\
  drawn w' = 30%nat /\
  data_frame w' = missing_frame.
Proof. vm_compute. repeat split; reflexivity. Qed.


(** C10.  When [hash] or [pseudonymize] is called with a column name
    that the table does not have, the call returns having printed an
    error report, and the table is the one it was: no column added,
    removed or changed. *)
Theorem absent_column_leaves_table (w : World) (c : string) :
  ~ In c (labels (data_frame w)) ->
  (run (hash c) w = (Returned tt, printed w [ErrorHashing c (KeyError c)]) /\
   data_frame (printed w [ErrorHashing c (KeyError c)]) = data_frame w) /\
  (run (pseudonymize c) w
   = (Returned tt, printed w [ErrorPseudonymizing c (KeyError c)]) /\
   data_frame (printed w [ErrorPseudonymizing c (KeyError c)]) = data_frame w).
Proof.
  intros Hc. apply lookup_None in Hc. split; split; try reflexivity.
  - now apply hash_data_absent.
  - now apply pseudonymize_data_absent.
Qed.

Lemma absent_column_leaves_table_witness :
  ~ In "Salary" (labels (data_frame sample_world)) /\
  run (hash "Salary") sample_world
  = (Returned tt, printed sample_world [ErrorHashing "Salary" (KeyError "Salary")]) /\
  run (pseudonymize "Salary") sample_world
  = (Returned tt,
     printed sample_world [ErrorPseudonymizing "Salary" (KeyError "Salary")]).
Proof.
  assert (~ In "Salary" (labels (data_frame sample_world))) as H.
  { simpl. intros [H|[H|[H|[]]]]; discriminate. }
  split; [exact H|].
  destruct (absent_column_leaves_table sample_world "Salary" H)
    as [[Hh _] [Hp _]].
  split; assumption.
Defined.

(** C4.  For every table, column name and kind outside the registered
    set (name, address, email, credit_card, phone), the call of
    [substitute_with_synthetic] fails: it reports the unsupported data
    type in a message that lists the registered tags, and it leaves the
    table as it was. *)
Theorem unsupported_kind_rejected (w : World) (c kind : string) :
  ~ In kind registered ->
  run (substitute_with_synthetic c kind) w
  = (Returned tt,
     printed w
       [ErrorCreatingFake c
          (ValueError
             ("Unsupported data type '" ++ kind ++
              "'. Supported types are: name, address, email, credit_card, phone."))])
  /\ data_frame
       (printed w
          [ErrorCreatingFake c
             (ValueError
                ("Unsupported data type '" ++ kind ++
                 "'. Supported types are: name, address, email, credit_card, phone."))])
     = data_frame w.
Proof.
  intros Hk. split; [|reflexivity].
  assert (provider_of kind = None) as Hp.
  { destruct (provider_of kind) as [p|] eqn:E; [|reflexivity].
    exfalso. apply Hk, provider_of_registered. now exists p. }
  unfold run. rewrite (create_fake_data_unsupported w c kind Hp). reflexivity.
Qed.

Lemma unsupported_kind_rejected_witness :
  ~ In "ssn" registered /\
  run (substitute_with_synthetic "X" "ssn") sample_world
  = (Returned tt,
     printed sample_world
       [ErrorCreatingFake "X"
          (ValueError
             "Unsupported data type 'ssn'. Supported types are: name, address, email, credit_card, phone.")]).
Proof.
  assert (~ In "ssn" registered) as H.
  { simpl. intros [H|[H|[H|[H|[H|[]]]]]]; discriminate. }
  split; [exact H|].
  exact (proj1 (unsupported_kind_rejected sample_world "X" "ssn" H)).
Defined.

(** C5.  For every table that has a column [c], [drop_column] removes
    [c]: afterwards [c] is absent, the other columns stand in the same
    order with the same values, and the row count is the same.  A second
    [drop_column] on the now absent name fails with the report that is
    kept for a missing column, apart from the generic one. *)
Theorem drop_column_removes (w : World) (c : string) :
  In c (labels (data_frame w)) ->
  exists w1,
    run (drop_column c) w = (Returned tt, w1) /\
    stdout w1 = (stdout w ++ [Dropped c])%list /\
    ~ In c (labels (data_frame w1)) /\
    labels (data_frame w1)
    = filter (fun l => negb (String.eqb l c)) (labels (data_frame w)) /\
    nrows (data_frame w1) = nrows (data_frame w) /\
    (forall c', c' <> c ->
       getitem (data_frame w1) c' = getitem (data_frame w) c') /\
    run (drop_column c) w1 = (Returned tt, printed w1 [ErrorNoColumn c]) /\
    data_frame (printed w1 [ErrorNoColumn c]) = data_frame w1.
Proof.
  intros Hin. destruct (lookup_Some _ _ Hin) as [col Hc].
  eexists. split; [exact (drop_present w c col Hc)|].
  split; [reflexivity|].
  split; [apply lookup_None; apply lookup_filter_same|].
  split; [apply labels_filter|].
  split; [reflexivity|].
  split.
  - intros c' Hne. unfold getitem. simpl. now rewrite lookup_filter_other.
  - split; [|reflexivity]. apply drop_absent. apply lookup_filter_same.
Qed.

Lemma drop_column_removes_witness :
  In "Email" (labels (data_frame sample_world)) /\
  exists w1,
    run (drop_column "Email") sample_world = (Returned tt, w1) /\
    labels (data_frame w1) = ["Name"; "Phone"] /\
    run (drop_column "Email") w1 = (Returned tt, printed w1 [ErrorNoColumn "Email"]).
Proof.
  assert (In "Email" (labels (data_frame sample_world))) as H.
  { simpl. tauto. }
  split; [exact H|].
  destruct (drop_column_removes sample_world "Email" H)
    as (w1 & Hrun & _ & _ & Hl & _ & _ & H2 & _).
  exists w1. repeat split; assumption.
Defined.

(** C8.  For every table, every column present in it and every
    registered kind, [substitute_with_synthetic] returns having replaced
    the column by freshly generated values of the provider registered for
    the kind: row [i] holds the result of its own provider call, the
    [i]-th call made, whatever the column held before.  The column keeps
    its length, the table its row count, its labels and its other
    columns. *)
Theorem substitute_replaces_every_value
  (w : World) (c kind : string) (col : list Value) :
  wf (data_frame w) ->
  getitem (data_frame w) c = inr col ->
  In kind registered ->
  exists (p : Provider) (w' : World) (col' : list Value),
    provider_of kind = Some p /\
    run (substitute_with_synthetic c kind) w = (Returned tt, w') /\
    stdout w' = (stdout w ++ [Replaced c kind])%list /\
    getitem (data_frame w') c = inr col' /\
    List.length col' = List.length col /\
    (forall i, (i < List.length col)%nat ->
       nth_error col' i = Some (VStr (fake w p (called w + i)%nat))) /\
    called w' = (called w + List.length col)%nat /\
    nrows (data_frame w') = nrows (data_frame w) /\
    labels (data_frame w') = labels (data_frame w) /\
    (forall c', c' <> c ->
       getitem (data_frame w') c' = getitem (data_frame w) c').
Proof.
  intros Hwf Hget Hk. unfold getitem in Hget.
  destruct (lookup (columns (data_frame w)) c) as [vs|] eqn:Hc; [|discriminate].
  injection Hget as ->.
  pose proof (lookup_length _ _ _ Hwf Hc) as Hlen.
  apply provider_of_registered in Hk as [p Hp].
  exists p. eexists. eexists.
  split; [exact Hp|].
  split; [exact (create_fake_data_supported w c kind p Hp)|].
  split; [reflexivity|].
  split; [unfold getitem; simpl; now rewrite lookup_assign_same|].
  split; [now rewrite length_generated|].
  split; [intros i Hi; apply nth_error_generated; lia|].
  split; [simpl; now rewrite Hlen|].
  split; [reflexivity|].
  split.
  - unfold labels. simpl. now apply labels_assign_present with (old := col).
  - intros c' Hne. unfold getitem. simpl. now rewrite lookup_assign_other.
Qed.

Lemma substitute_replaces_every_value_witness :
  wf (data_frame sample_world) /\
  getitem (data_frame sample_world) "Phone"
  = inr [VStr "123-456-7890"; VStr "234-567-8901"; VStr "345-678-9012"] /\
  In "phone" registered /\
  exists (p : Provider) (w' : World) (col' : list Value),
    provider_of "phone" = Some p /\
    run (substitute_with_synthetic "Phone" "phone") sample_world
    = (Returned tt, w') /\
    getitem (data_frame w') "Phone" = inr col' /\
    List.length col' = 3%nat.
Proof.
  assert (In "phone" registered) as Hk by (simpl; tauto).
  split; [apply wfb_wf; reflexivity|]. split; [reflexivity|].
  split; [exact Hk|].
  destruct (substitute_replaces_every_value sample_world "Phone" "phone" _
              (wfb_wf sample eq_refl) eq_refl Hk)
    as (p & w' & col' & Hp & Hrun & _ & Hcol & Hlen & _).
  exists p, w', col'. exact (conj Hp (conj Hrun (conj Hcol Hlen))).
Defined.

(** C7, as the code has it.  After [drop_column] has succeeded on [c],
    [hash] and [pseudonymize] on [c] fail on the absent column and
    change nothing but the output.  [substitute_with_synthetic] with a
    registered kind does not fail: it adds [c] again as the last column,
    filled with generated values. *)
Theorem after_drop_column (w : World) (c : string) :
  In c (labels (data_frame w)) ->
  exists w1,
    dropped w c w1 /\
    column_not_found (hash c) c w1 /\
    column_not_found (pseudonymize c) c w1 /\
    (forall kind, In kind registered ->
       exists (p : Provider) (w2 : World),
         provider_of kind = Some p /\
         run (substitute_with_synthetic c kind) w1 = (Returned tt, w2) /\
         stdout w2 = (stdout w1 ++ [Replaced c kind])%list /\
         labels (data_frame w2) = (labels (data_frame w1) ++ [c])%list /\
         getitem (data_frame w2) c
         = inr (generated (fake w1 p) (called w1) (nrows (data_frame w1)))).
Proof.
  intros Hin. destruct (lookup_Some _ _ Hin) as [col Hc].
  eexists. split; [split; [exact (drop_present w c col Hc) | reflexivity]|].
  match goal with |- column_not_found _ _ ?w /\ _ => set (w1 := w) end.
  assert (lookup (columns (data_frame w1)) c = None) as Hnone
    by apply lookup_filter_same.
  split; [|split].
  - exists (ErrorHashing c (KeyError c)). split.
    + exact (hash_data_absent w1 c Hnone).
    + left. reflexivity.
  - exists (ErrorPseudonymizing c (KeyError c)). split.
    + exact (pseudonymize_data_absent w1 c Hnone).
    + right. left. reflexivity.
  - intros kind Hk. apply provider_of_registered in Hk as [p Hp].
    exists p. eexists.
    split; [exact Hp|].
    split; [exact (create_fake_data_supported w1 c kind p Hp)|].
    split; [reflexivity|].
    split.
    + unfold labels.
      change (columns (data_frame (printed ?x _))) with (columns (data_frame x)).
      cbn [with_frame data_frame columns].
      rewrite (labels_assign_absent _ c _ Hnone), map_app. reflexivity.
    + unfold getitem.
      cbn [printed with_frame data_frame columns].
      now rewrite lookup_assign_same.
Qed.

Lemma after_drop_column_witness :
  In "Phone" (labels (data_frame sample_world)) /\
  exists w1,
    dropped sample_world "Phone" w1 /\
    column_not_found (hash "Phone") "Phone" w1 /\
    column_not_found (pseudonymize "Phone") "Phone" w1.
Proof.
  assert (In "Phone" (labels (data_frame sample_world))) as H.
  { simpl. tauto. }
  split; [exact H|].
  destruct (after_drop_column sample_world "Phone" H) as (w1 & Hd & Hh & Hp & _).
  exists w1. exact (conj Hd (conj Hh Hp)).
Defined.

(** C7, as stated, fails: on the sample, after [drop_column] has removed
    the column Phone, [substitute_with_synthetic] on Phone with the kind
    phone succeeds. *)
Lemma substitute_after_drop_succeeds :
  ~ fails_after_drop sample_world "Phone"
      (substitute_with_synthetic "Phone" "phone").
Proof.
  intros H.
  specialize (H (snd (run (drop_column "Phone") sample_world))
                (conj eq_refl eq_refl)).
  destruct H as (l & Hrun & Hl).
  apply (f_equal (fun r => stdout (snd r))) in Hrun.
  vm_compute in Hrun. injection Hrun as <-.
  destruct Hl as [Hl|[Hl|[Hl|Hl]]]; discriminate.
Qed.



(** A batch in which three calls fail runs to its end. *)
Example failures_do_not_abort :
  stdout (snd (run_all [ hash "Salary"; drop_column "Email";
                         drop_column "Email"; export "/proc/x.csv";
                         substitute_with_synthetic "Name" "ssn";
                         hash "Name" ] sample_world))
  = [ ErrorHashing "Salary" (KeyError "Salary");
      Dropped "Email";
      ErrorNoColumn "Email";
      ErrorSaving "/proc/x.csv" (OSError "/proc/x.csv");
      ErrorCreatingFake "Name" (ValueError (unsupported "ssn"));
      Hashed "Name" ].
Proof. vm_compute. reflexivity. Qed.




(** What the export of the address table looks like: the cell is quoted
    and runs over two lines, and the reader gives it back whole. *)
Example address_export :
  Csv.to_csv address_frame
  = "Address" ++ String LF (String DQUOTE ("1 Main Street" ++ String LF
      ("Springfield, IL 62701" ++ String DQUOTE (String LF EmptyString))))
  /\ Csv.reader (Csv.to_csv address_frame) = records address_frame.
Proof. split; reflexivity. Qed.



(** The compression inferred from some names. *)
Example compression_inferred :
  map infer_compression
    ["anonymized_data.csv"; "out.csv.gz"; "OUT.ZIP"; "backup.tar.gz";
     "data.tar"; "gz"; "report.gzip"]
  = [None; Some gzip; Some zip; Some tar; Some tar; None; None].
Proof. reflexivity. Qed.

(** To a compressed destination the export writes an archive, which
    depends on the time of the call: two exports of one table can leave
    different files. *)
Example compressed_export_depends_on_time :
  let w1 := snd (run (export "out.csv.gz") sample_world) in
  let w2 := snd (run (export "out.csv.gz") w1) in
  stdout w2 = [Saved "out.csv.gz"; Saved "out.csv.gz"] /\
  dict_get String.eqb (files (disk w1)) "out.csv.gz"
  <> dict_get String.eqb (files (disk w2)) "out.csv.gz".
Proof. vm_compute. split; [reflexivity | discriminate]. Qed.


(* ================================================================== *)
(** ** Further properties of the methods *)
(* ================================================================== *)

Lemma Forall_assign (n : nat) (cols : list (string * list Value)) c vs :
  Forall (fun p => List.length (snd p) = n) cols ->
  List.length vs = n ->
  Forall (fun p => List.length (snd p) = n) (assign cols c vs).
Proof.
  intros Hall Hvs. induction cols as [|[l old] cols IH]; simpl.
  - constructor; [exact Hvs | constructor].
  - inversion Hall as [|? ? Hh Ht]; subst.
    destruct (String.eqb l c); constructor; auto.
Qed.

Lemma wf_assign (df : DataFrame) (c : string) (vs : list Value) :
  wf df -> List.length vs = nrows df ->
  wf (mkFrame (nrows df) (assign (columns df) c vs)).
Proof.
  intros [Hnd Hlen] Hvs. split.
  - unfold labels in *. cbn [columns].
    destruct (lookup (columns df) c) as [old|] eqn:Hc.
    + now rewrite (labels_assign_present _ c vs old Hc).
    + rewrite (labels_assign_absent _ c vs Hc), map_app. cbn [map fst].
      apply lookup_None in Hc.
      apply NoDup_app; [exact Hnd | repeat constructor; intros [] |].
      intros x Hx [<-|[]]. contradiction.
  - cbn [columns nrows]. now apply Forall_assign.
Qed.

Lemma wf_filter (df : DataFrame) (c : string) :
  wf df ->
  wf (mkFrame (nrows df)
        (filter (fun p => negb (String.eqb (fst p) c)) (columns df))).
Proof.
  intros [Hnd Hlen]. split.
  - unfold labels in *. cbn [columns]. rewrite labels_filter.
    now apply NoDup_filter.
  - cbn [columns nrows]. rewrite Forall_forall in *.
    intros p Hp. apply filter_In in Hp as [Hp _]. auto.
Qed.

Lemma dict_get_set_other_file (d : dict string string) (k g v : string) :
  String.eqb g k = false ->
  dict_get String.eqb (dict_set String.eqb d k v) g = dict_get String.eqb d g.
Proof.
  intros Hne. rewrite String.eqb_sym in Hne.
  induction d as [|[k' v'] d IH]; simpl.
  - now rewrite Hne.
  - destruct (String.eqb_spec k' k) as [->|Hk]; simpl.
    + now rewrite Hne.
    + now rewrite IH.
Qed.

(** The parts of [run_effect] that go the same way in every case. *)
Ltac effect_of_failure :=
  do 3 (split; [reflexivity|]);
  split; [intros _; split; [reflexivity | intros g _; reflexivity]|];
  split; [intros Hwf; exact Hwf|];
  split; [reflexivity|];
  split; [intros c' _; reflexivity|];
  repeat split; try reflexivity; intros; reflexivity.

Ltac effect_of_success :=
  do 3 (split; [reflexivity|]);
  split; [intros H; discriminate H|];
  split;
  [|split; [reflexivity|];
    split;
    [intros c' Hc'; unfold getitem;
     cbn [with_frame with_called with_drawn data_frame columns];
     first [ rewrite lookup_assign_other by congruence
           | rewrite lookup_filter_other by congruence ];
     reflexivity
    |repeat (split; [reflexivity|]); reflexivity]].

(** Every call, whatever its outcome: the world [w0] it leaves before its
    one report is printed, what a failure leaves untouched, the
    invariant of the frame, the columns it does not work on, and the
    footprint. *)
Lemma run_effect (op : Operation) (w : World) :
  exists (w0 : World) (l : Line),
    run op w = (Returned tt, printed w0 [l]) /\
    stdout w0 = stdout w /\ entropy w0 = entropy w /\ fake w0 = fake w /\
    (is_error l = true ->
     data_frame w0 = data_frame w /\
     forall g, (op = export g -> cut (disk w) g = None) ->
       dict_get String.eqb (files (disk w0)) g
       = dict_get String.eqb (files (disk w)) g) /\
    (wf (data_frame w) -> wf (data_frame w0)) /\
    nrows (data_frame w0) = nrows (data_frame w) /\
    (forall c', target op <> Some c' ->
       getitem (data_frame w0) c' = getitem (data_frame w) c') /\
    footprint op w w0.
Proof.
  destruct op as [c|c|c kind|c|f]; unfold run, footprint, target.
  - destruct (lookup (columns (data_frame w)) c) as [col|] eqn:Hc.
    + destruct (Nat.eqb (List.length col) (nrows (data_frame w))) eqn:Hl.
      * apply Nat.eqb_eq in Hl.
        eexists. eexists.
        split; [exact (hash_data_present w c col Hc Hl)|].
        effect_of_success.
        intros Hwf. apply wf_assign; [exact Hwf|].
        unfold apply. now rewrite length_map.
      * eexists. eexists.
        split; [exact (hash_data_mismatch w c col Hc Hl)|].
        effect_of_failure.
    + eexists. eexists. split; [exact (hash_data_absent w c Hc)|].
      effect_of_failure.
  - destruct (lookup (columns (data_frame w)) c) as [col|] eqn:Hc.
    + destruct (mixed_missing col) eqn:Hmix.
      * eexists. eexists.
        split; [exact (pseudonymize_data_mixed w c col Hc Hmix)|].
        effect_of_failure.
      * destruct (Nat.eqb (List.length col) (nrows (data_frame w))) eqn:Hl.
        -- apply Nat.eqb_eq in Hl.
           eexists. eexists.
           split; [exact (pseudonymize_data_present w c col Hc Hmix Hl)|].
           effect_of_success.
           intros Hwf. apply wf_assign; [exact Hwf|].
           unfold mapped. now rewrite length_map.
        -- eexists. eexists.
           split; [exact (pseudonymize_data_mismatch w c col Hc Hmix Hl)|].
           effect_of_failure.
    + eexists. eexists. split; [exact (pseudonymize_data_absent w c Hc)|].
      effect_of_failure.
  - destruct (provider_of kind) as [p|] eqn:Hp.
    + eexists. eexists.
      split; [exact (create_fake_data_supported w c kind p Hp)|].
      effect_of_success.
      intros Hwf. apply wf_assign; [exact Hwf|].
      apply length_generated.
    + eexists. eexists.
      split; [exact (create_fake_data_unsupported w c kind Hp)|].
      effect_of_failure.
  - destruct (lookup (columns (data_frame w)) c) as [col|] eqn:Hc.
    + eexists. eexists. split; [exact (drop_present w c col Hc)|].
      effect_of_success.
      intros Hwf. now apply wf_filter.
    + eexists. eexists. split; [exact (drop_absent w c Hc)|].
      effect_of_failure.
  - destruct (existsb (String.eqb f) (unwritable (disk w))) eqn:Hw.
    + eexists. eexists. split; [exact (save_failed w f Hw)|].
      do 3 (split; [reflexivity|]).
      split.
      { intros _. split; [reflexivity|]. intros g Hg.
        cbn [with_disk disk]. unfold write_file. rewrite Hw.
        destruct (cut (disk w) f) as [n|] eqn:Hcut; [|reflexivity].
        cbn [snd stored files].
        destruct (String.eqb_spec g f) as [->|Hne].
        - rewrite (Hg eq_refl) in Hcut. discriminate.
        - apply dict_get_set_other_file. now apply String.eqb_neq. }
      split; [intros Hwf; exact Hwf|].
      split; [reflexivity|].
      split; [intros c' _; reflexivity|].
      do 3 (split; [reflexivity|]).
      split; [cbn [with_disk disk]; apply write_file_keeps|].
      intros g Hg. cbn [with_disk disk]. unfold write_file. rewrite Hw.
      destruct (cut (disk w) f); [|reflexivity].
      cbn [snd stored files]. now apply dict_get_set_other_file.
    + eexists. eexists. split; [exact (save_written w f Hw)|].
      do 3 (split; [reflexivity|]).
      split; [intros H; discriminate H|].
      split; [intros Hwf; exact Hwf|].
      split; [reflexivity|].
      split; [intros c' _; reflexivity|].
      do 4 (split; [reflexivity|]).
      intros g Hg. cbn [with_disk disk stored files].
      now apply dict_get_set_other_file.
Qed.

Lemma after_cons (op : Operation) (ops : list Operation) (w : World) :
  after (op :: ops) w = after ops (snd (run op w)).
Proof.
  unfold after. cbn [run_all]. unfold bind.
  destruct (run_effect op w) as (w0 & l & Hrun & _). now rewrite Hrun.
Qed.

(** X1.  What an operation touches besides the table and the output:
    none changes the random source or the [Faker] object themselves;
    [hash] and [drop_column] draw no number, call no provider and write
    nothing; [pseudonymize] calls no provider and writes nothing;
    [substitute_with_synthetic] draws no number and writes nothing;
    [export] draws nothing, calls nothing, leaves the table as it is and
    leaves every other file on the disk as it is. *)
Theorem operations_footprint (op : Operation) (w : World) :
  entropy (snd (run op w)) = entropy w /\
  fake (snd (run op w)) = fake w /\
  footprint op w (snd (run op w)).
Proof.
  destruct (run_effect op w)
    as (w0 & l & Hrun & _ & He & Hf & _ & _ & _ & _ & Hfoot).
  rewrite Hrun. cbn [snd].
  split; [exact He|]. split; [exact Hf|].
  destruct op; exact Hfoot.
Qed.

Lemma operations_footprint_witness :
  String.eqb "notes.txt" "anonymized_data.csv" = false /\
  dict_get String.eqb
    (files (disk (snd (run (export "anonymized_data.csv") archive_world))))
    "notes.txt"
  = Some "keep".
Proof.
  split; [reflexivity|].
  destruct (operations_footprint (export "anonymized_data.csv") archive_world)
    as (_ & _ & _ & _ & _ & _ & Hfiles).
  rewrite (Hfiles "notes.txt" eq_refl). reflexivity.
Defined.



(** An export that fails after the destination was opened leaves there
    what got through, in place of the old file. *)
Example failed_write_truncates :
  let w' := snd (run (export "/quota/x.csv") archive_world) in
  stdout w' = [ErrorSaving "/quota/x.csv" (OSError "/quota/x.csv")] /\
  dict_get String.eqb (files (disk archive_world)) "/quota/x.csv"
  = Some "old" /\
  dict_get String.eqb (files (disk w')) "/quota/x.csv" = Some "Name,Email".
Proof. vm_compute. repeat split; reflexivity. Qed.

(** X3.  The operations keep the invariant of the frame: after any batch
    of calls on a table with distinct labels and columns of one length,
    the labels are still distinct and the columns still of one length. *)
Theorem batch_keeps_frame_invariant (ops : list Operation) (w : World) :
  wf (data_frame w) -> wf (data_frame (after ops w)).
Proof.
  revert w. induction ops as [|op ops IH]; intros w Hwf.
  - exact Hwf.
  - rewrite after_cons. apply IH.
    destruct (run_effect op w) as (w0 & l & Hrun & _ & _ & _ & _ & Hkeep & _).
    rewrite Hrun. exact (Hkeep Hwf).
Qed.

Lemma batch_keeps_frame_invariant_witness :
  wf (data_frame sample_world) /\
  wf (data_frame
        (after [ substitute_with_synthetic "City" "address";
                 drop_column "Email"; hash "Name"; pseudonymize "City" ]
               sample_world)).
Proof.
  split; [apply wfb_wf; reflexivity|].
  exact (batch_keeps_frame_invariant _ sample_world (wfb_wf sample eq_refl)).
Defined.

(** X4.  A batch of calls changes no column that none of its calls works
    on, and never the number of rows. *)
Theorem other_columns_untouched
  (ops : list Operation) (w : World) (c' : string) :
  Forall (fun op => target op <> Some c') ops ->
  getitem (data_frame (after ops w)) c' = getitem (data_frame w) c' /\
  nrows (data_frame (after ops w)) = nrows (data_frame w).
Proof.
  revert w. induction ops as [|op ops IH]; intros w Hall.
  - split; reflexivity.
  - inversion Hall as [|? ? Hop Hops]; subst.
    rewrite after_cons.
    destruct (IH (snd (run op w)) Hops) as [Hcol Hrows].
    rewrite Hcol, Hrows.
    destruct (run_effect op w)
      as (w0 & l & Hrun & _ & _ & _ & _ & _ & Hn & Hother & _).
    rewrite Hrun. split; [exact (Hother c' Hop) | exact Hn].
Qed.

Lemma other_columns_untouched_witness :
  Forall (fun op => target op <> Some "Email")
    [hash "Name"; drop_column "Phone"; substitute_with_synthetic "Name" "name"]
  /\
  getitem (data_frame
             (after [ hash "Name"; drop_column "Phone";
                      substitute_with_synthetic "Name" "name" ] sample_world))
          "Email"
  = getitem sample "Email".
Proof.
  assert (Forall (fun op => target op <> Some "Email")
            [hash "Name"; drop_column "Phone";
             substitute_with_synthetic "Name" "name"]) as H.
  { repeat constructor; discriminate. }
  split; [exact H|].
  exact (proj1 (other_columns_untouched _ sample_world "Email" H)).
Defined.

Lemma filled_other (numbers : nat -> nat) (entries : list Value) :
  forall from d v,
    ~ In v entries ->
    dict_get Value_eqb (filled numbers from entries d) v
    = dict_get Value_eqb d v.
Proof.
  induction entries as [|e es IH]; intros from d v Hv; [reflexivity|].
  change (filled numbers from (e :: es) d)
    with (filled numbers (from + 10) es
            (dict_set Value_eqb d e
               (draws (ascii_letters ++ digits) numbers from 10))).
  rewrite IH by (intros H; apply Hv; now right).
  apply dict_get_set_other. intros ->. apply Hv. now left.
Qed.

(** The entry of the [i]-th distinct value is the [i]-th block of ten
    draws. *)
Lemma filled_get (numbers : nat -> nat) (entries : list Value) :
  forall from d i v,
    NoDup entries -> nth_error entries i = Some v ->
    dict_get Value_eqb (filled numbers from entries d) v
    = Some (draws (ascii_letters ++ digits) numbers (from + 10 * i) 10).
Proof.
  induction entries as [|e es IH]; intros from d i v Hnd Hi.
  - destruct i; discriminate.
  - inversion Hnd as [|? ? Hne Hnd']; subst.
    change (filled numbers from (e :: es) d)
      with (filled numbers (from + 10) es
              (dict_set Value_eqb d e
                 (draws (ascii_letters ++ digits) numbers from 10))).
    destruct i as [|i]; cbn [nth_error] in Hi.
    + injection Hi as ->.
      rewrite filled_other by exact Hne.
      rewrite dict_get_set_same. do 2 f_equal. lia.
    + rewrite (IH (from + 10)%nat _ i v Hnd' Hi). do 2 f_equal. lia.
Qed.

Lemma draws_constant (population : string) (numbers : nat -> nat) (k : nat) :
  (forall i, numbers i = numbers O) ->
  forall from from',
    draws population numbers from k = draws population numbers from' k.
Proof.
  intros Hconst. induction k as [|k IH]; intros from from'; [reflexivity|].
  change (draws population numbers from (S k))
    with (String (nth (numbers from mod String.length population)%nat
                      (list_ascii_of_string population) "000"%char)
                 (draws population numbers (S from) k)).
  change (draws population numbers from' (S k))
    with (String (nth (numbers from' mod String.length population)%nat
                      (list_ascii_of_string population) "000"%char)
                 (draws population numbers (S from') k)).
  rewrite (Hconst from), (Hconst from'), (IH (S from) (S from')).
  reflexivity.
Qed.

(** X5.  How [pseudonymize] uses the random source: on a present column
    it draws exactly ten numbers per distinct value; and, where the
    column does not hold both [None] and [nan], the value that appears
    [i]-th for the first time gets, in every row where it stands, the
    pseudonym made of the [i]-th block of ten draws. *)
Theorem pseudonyms_follow_first_appearance
  (w : World) (c : string) (col : list Value) :
  wf (data_frame w) ->
  getitem (data_frame w) c = inr col ->
  drawn (snd (run (pseudonymize c) w))
  = (drawn w + 10 * List.length (unique col))%nat /\
  (mixed_missing col = false ->
   exists col',
     getitem (data_frame (snd (run (pseudonymize c) w))) c = inr col' /\
     forall i j v,
       nth_error (unique col) i = Some v ->
       nth_error col j = Some v ->
       nth_error col' j
       = Some (VStr (draws (ascii_letters ++ digits) (entropy w)
                           (drawn w + 10 * i) 10))).
Proof.
  intros Hwf Hget. unfold getitem in Hget.
  destruct (lookup (columns (data_frame w)) c) as [vs|] eqn:Hc; [|discriminate].
  injection Hget as ->.
  pose proof (lookup_length _ _ _ Hwf Hc) as Hlen.
  unfold run. split.
  - destruct (mixed_missing col) eqn:Hmix.
    + now rewrite (pseudonymize_data_mixed w c col Hc Hmix).
    + now rewrite (pseudonymize_data_present w c col Hc Hmix Hlen).
  - intros Hmix. rewrite (pseudonymize_data_present w c col Hc Hmix Hlen).
    eexists. split.
    + unfold getitem. cbn [snd printed with_frame data_frame columns].
      rewrite lookup_assign_same. reflexivity.
    + intros i j v Hi Hj. unfold mapped.
      rewrite nth_error_map, Hj. cbn [option_map].
      rewrite (filled_get _ _ _ _ i v (proj1 (unique_acc_NoDup col [])) Hi).
      reflexivity.
Qed.

Lemma pseudonyms_follow_first_appearance_witness :
  wf (data_frame sample_world) /\
  getitem (data_frame sample_world) "Name"
  = inr [VStr "Alice"; VStr "Bob"; VStr "Charlie"] /\
  mixed_missing [VStr "Alice"; VStr "Bob"; VStr "Charlie"] = false /\
  drawn (snd (run (pseudonymize "Name") sample_world)) = 30%nat /\
  exists col',
    getitem (data_frame (snd (run (pseudonymize "Name") sample_world))) "Name"
    = inr col'.
Proof.
  split; [apply wfb_wf; reflexivity|]. split; [reflexivity|].
  split; [reflexivity|].
  destruct (pseudonyms_follow_first_appearance sample_world "Name" _
              (wfb_wf sample eq_refl) eq_refl) as (Hdrawn & Hcol).
  split; [exact Hdrawn|].
  destruct (Hcol eq_refl) as (col' & Hget & _).
  exists col'. exact Hget.
Defined.

(** X6.  [pseudonymize] does not check that distinct values get distinct
    pseudonyms: when the random source keeps drawing the same number,
    every value of a column that does not hold both [None] and [nan],
    equal or not, is replaced by one and the same pseudonym. *)
Theorem pseudonyms_may_collide (w : World) (c : string) (col : list Value) :
  wf (data_frame w) ->
  getitem (data_frame w) c = inr col ->
  mixed_missing col = false ->
  (forall i, entropy w i = entropy w O) ->
  exists p,
    is_pseudonym p /\
    getitem (data_frame (snd (run (pseudonymize c) w))) c
    = inr (map (fun _ => VStr p) col).
Proof.
  intros Hwf Hget Hmix Hconst. unfold getitem in Hget.
  destruct (lookup (columns (data_frame w)) c) as [vs|] eqn:Hc; [|discriminate].
  injection Hget as ->.
  pose proof (lookup_length _ _ _ Hwf Hc) as Hlen.
  exists (draws (ascii_letters ++ digits) (entropy w) O 10).
  split; [apply draws_pseudonym|].
  unfold run. rewrite (pseudonymize_data_present w c col Hc Hmix Hlen).
  unfold getitem. cbn [snd printed with_frame data_frame columns].
  rewrite lookup_assign_same. f_equal.
  unfold mapped. apply map_ext_in. intros v Hv.
  apply unique_In in Hv. apply In_nth_error in Hv as [i Hi].
  rewrite (filled_get _ _ _ _ i v (proj1 (unique_acc_NoDup col [])) Hi).
  f_equal. now apply draws_constant.
Qed.

Lemma pseudonyms_may_collide_witness :
  wf sample /\
  getitem sample "Name" = inr [VStr "Alice"; VStr "Bob"; VStr "Charlie"] /\
  mixed_missing [VStr "Alice"; VStr "Bob"; VStr "Charlie"] = false /\
  exists p,
    is_pseudonym p /\
    getitem
      (data_frame
         (snd (run (pseudonymize "Name")
                 (mkWorld sample (fun _ => 5%nat) 0 sample_fake 0 []
                          (sample_disk [])))))
      "Name"
    = inr [VStr p; VStr p; VStr p].
Proof.
  split; [apply wfb_wf; reflexivity|]. split; [reflexivity|].
  split; [reflexivity|].
  exact (pseudonyms_may_collide
           (mkWorld sample (fun _ => 5%nat) 0 sample_fake 0 []
                    (sample_disk []))
           "Name" _ (wfb_wf sample eq_refl) eq_refl eq_refl
           (fun _ => eq_refl)).
Defined.

Lemma after_two (a b : Operation) (w : World) :
  after [a; b] w = snd (run b (snd (run a w))).
Proof.
  rewrite !after_cons. unfold after. reflexivity.
Qed.

Lemma after_one (a : Operation) (w : World) : after [a] w = snd (run a w).
Proof. rewrite after_cons. reflexivity. Qed.

Lemma assign_assign (cols : list (string * list Value)) c v1 v2 :
  assign (assign cols c v1) c v2 = assign cols c v2.
Proof.
  induction cols as [|[l old] cols IH]; simpl.
  - now rewrite String.eqb_refl.
  - destruct (String.eqb l c) eqn:E; simpl; rewrite E; [reflexivity|].
    now rewrite IH.
Qed.

Lemma filter_assign (cols : list (string * list Value)) c v :
  filter (fun p => negb (String.eqb (fst p) c)) (assign cols c v)
  = filter (fun p => negb (String.eqb (fst p) c)) cols.
Proof.
  induction cols as [|[l old] cols IH]; simpl.
  - now rewrite String.eqb_refl.
  - destruct (String.eqb l c) eqn:E; simpl; rewrite E; simpl; [reflexivity|].
    now rewrite IH.
Qed.

Lemma assign_comm (cols : list (string * list Value)) c1 c2 v1 v2 o1 o2 :
  c1 <> c2 ->
  lookup cols c1 = Some o1 -> lookup cols c2 = Some o2 ->
  assign (assign cols c1 v1) c2 v2 = assign (assign cols c2 v2) c1 v1.
Proof.
  intros Hne. induction cols as [|[l old] cols IH]; simpl; [discriminate|].
  destruct (String.eqb l c1) eqn:E1; destruct (String.eqb l c2) eqn:E2;
    intros L1 L2; simpl; rewrite ?E1, ?E2; try reflexivity.
  - apply String.eqb_eq in E1, E2. congruence.
  - now rewrite (IH L1 L2).
Qed.

Lemma filter_assign_comm (cols : list (string * list Value)) c1 c2 v :
  c1 <> c2 ->
  filter (fun p => negb (String.eqb (fst p) c2)) (assign cols c1 v)
  = assign (filter (fun p => negb (String.eqb (fst p) c2)) cols) c1 v.
Proof.
  intros Hne. apply String.eqb_neq in Hne.
  induction cols as [|[l old] cols IH]; simpl.
  - now rewrite Hne.
  - destruct (String.eqb_spec l c1) as [->|H1]; simpl.
    + rewrite Hne. simpl. now rewrite String.eqb_refl.
    + destruct (String.eqb l c2) eqn:H2; simpl; [exact IH|].
      apply String.eqb_neq in H1. now rewrite H1, IH.
Qed.

(** The table that each transform of a present column leaves. *)
Lemma frame_after_hash (w : World) (c : string) (col : list Value) :
  wf (data_frame w) -> lookup (columns (data_frame w)) c = Some col ->
  snd (run (hash c) w)
  = printed (with_frame w (mkFrame (nrows (data_frame w))
               (assign (columns (data_frame w)) c (apply sha256_hex col))))
            [Hashed c].
Proof.
  intros Hwf Hc. unfold run.
  now rewrite (hash_data_present w c col Hc (lookup_length _ _ _ Hwf Hc)).
Qed.

Lemma frame_after_pseudonymize (w : World) (c : string) (col : list Value) :
  wf (data_frame w) -> lookup (columns (data_frame w)) c = Some col ->
  mixed_missing col = false ->
  snd (run (pseudonymize c) w)
  = printed
      (with_frame (with_drawn w (drawn w + 10 * List.length (unique col)))
         (mkFrame (nrows (data_frame w))
            (assign (columns (data_frame w)) c
               (mapped (filled (entropy w) (drawn w) (unique col) []) col))))
      [Pseudonymized c].
Proof.
  intros Hwf Hc Hmix. unfold run.
  now rewrite (pseudonymize_data_present w c col Hc Hmix
                 (lookup_length _ _ _ Hwf Hc)).
Qed.

Lemma frame_after_pseudonymize_mixed
  (w : World) (c : string) (col : list Value) :
  lookup (columns (data_frame w)) c = Some col ->
  mixed_missing col = true ->
  snd (run (pseudonymize c) w)
  = printed (with_drawn w (drawn w + 10 * List.length (unique col)))
      [ErrorPseudonymizing c InvalidIndexError].
Proof.
  intros Hc Hmix. unfold run.
  now rewrite (pseudonymize_data_mixed w c col Hc Hmix).
Qed.

Lemma frame_after_substitute (w : World) (c kind : string) (p : Provider) :
  provider_of kind = Some p ->
  snd (run (substitute_with_synthetic c kind) w)
  = printed
      (with_frame (with_called w (called w + nrows (data_frame w)))
         (mkFrame (nrows (data_frame w))
            (assign (columns (data_frame w)) c
               (generated (fake w p) (called w) (nrows (data_frame w))))))
      [Replaced c kind].
Proof.
  intros Hp. unfold run. now rewrite (create_fake_data_supported w c kind p Hp).
Qed.

Lemma frame_after_drop (w : World) (c : string) (col : list Value) :
  lookup (columns (data_frame w)) c = Some col ->
  snd (run (drop_column c) w)
  = printed
      (with_frame w
         (mkFrame (nrows (data_frame w))
            (filter (fun p => negb (String.eqb (fst p) c))
                    (columns (data_frame w)))))
      [Dropped c].
Proof. intros Hc. unfold run. now rewrite (drop_present w c col Hc). Qed.

Lemma table_after_substitute (w : World) (c kind : string) (p : Provider) :
  provider_of kind = Some p ->
  data_frame (snd (run (substitute_with_synthetic c kind) w))
  = mkFrame (nrows (data_frame w))
      (assign (columns (data_frame w)) c
         (generated (fake w p) (called w) (nrows (data_frame w)))).
Proof. intros Hp. now rewrite (frame_after_substitute w c kind p Hp). Qed.

Lemma table_after_drop (w : World) (c : string) (col : list Value) :
  lookup (columns (data_frame w)) c = Some col ->
  data_frame (snd (run (drop_column c) w))
  = mkFrame (nrows (data_frame w))
      (filter (fun p => negb (String.eqb (fst p) c)) (columns (data_frame w))).
Proof. intros Hc. now rewrite (frame_after_drop w c col Hc). Qed.

(** X7.  On one column the later operation wins: replacing a column by
    synthetic values, or dropping it, after it was hashed or
    pseudonymized leaves the table that the later operation alone
    leaves. *)
Theorem later_operation_wins (w : World) (c kind : string) (col : list Value) :
  wf (data_frame w) ->
  getitem (data_frame w) c = inr col ->
  In kind registered ->
  data_frame (after [hash c; substitute_with_synthetic c kind] w)
  = data_frame (after [substitute_with_synthetic c kind] w) /\
  data_frame (after [pseudonymize c; substitute_with_synthetic c kind] w)
  = data_frame (after [substitute_with_synthetic c kind] w) /\
  data_frame (after [hash c; drop_column c] w)
  = data_frame (after [drop_column c] w) /\
  data_frame (after [pseudonymize c; drop_column c] w)
  = data_frame (after [drop_column c] w) /\
  data_frame (after [substitute_with_synthetic c kind; drop_column c] w)
  = data_frame (after [drop_column c] w).
Proof.
  intros Hwf Hget Hk. unfold getitem in Hget.
  destruct (lookup (columns (data_frame w)) c) as [vs|] eqn:Hc; [|discriminate].
  injection Hget as ->.
  apply provider_of_registered in Hk as [p Hp].
  rewrite !after_two, !after_one.
  rewrite !(table_after_substitute _ c kind p Hp).
  rewrite (table_after_drop w c col Hc).
  split; [|split; [|split; [|split]]].
  - rewrite (frame_after_hash w c col Hwf Hc).
    cbn [printed with_frame data_frame columns nrows fake called].
    now rewrite assign_assign.
  - destruct (mixed_missing col) eqn:Hmix.
    + rewrite (frame_after_pseudonymize_mixed w c col Hc Hmix). reflexivity.
    + rewrite (frame_after_pseudonymize w c col Hwf Hc Hmix).
      cbn [printed with_frame with_drawn data_frame columns nrows fake called].
      now rewrite assign_assign.
  - rewrite (frame_after_hash w c col Hwf Hc).
    erewrite table_after_drop
      by (cbn [printed with_frame data_frame columns];
          apply lookup_assign_same).
    cbn [printed with_frame data_frame columns nrows].
    now rewrite filter_assign.
  - destruct (mixed_missing col) eqn:Hmix.
    + rewrite (frame_after_pseudonymize_mixed w c col Hc Hmix).
      erewrite table_after_drop
        by (cbn [printed with_drawn data_frame]; exact Hc).
      reflexivity.
    + rewrite (frame_after_pseudonymize w c col Hwf Hc Hmix).
      erewrite table_after_drop
        by (cbn [printed with_frame with_drawn data_frame columns];
            apply lookup_assign_same).
      cbn [printed with_frame with_drawn data_frame columns nrows].
      now rewrite filter_assign.
  - rewrite (frame_after_substitute w c kind p Hp).
    erewrite table_after_drop
      by (cbn [printed with_frame with_called data_frame columns];
          apply lookup_assign_same).
    cbn [printed with_frame with_called data_frame columns nrows].
    now rewrite filter_assign.
Qed.

Lemma later_operation_wins_witness :
  wf (data_frame sample_world) /\
  getitem (data_frame sample_world) "Phone"
  = inr [VStr "123-456-7890"; VStr "234-567-8901"; VStr "345-678-9012"] /\
  In "phone" registered /\
  data_frame (after [hash "Phone"; substitute_with_synthetic "Phone" "phone"]
                    sample_world)
  = data_frame (after [substitute_with_synthetic "Phone" "phone"] sample_world).
Proof.
  assert (In "phone" registered) as Hk by (simpl; tauto).
  split; [apply wfb_wf; reflexivity|]. split; [reflexivity|].
  split; [exact Hk|].
  exact (proj1 (later_operation_wins sample_world "Phone" "phone" _
                  (wfb_wf sample eq_refl) eq_refl Hk)).
Defined.

Lemma table_after_hash (w : World) (c : string) (col : list Value) :
  lookup (columns (data_frame w)) c = Some col ->
  List.length col = nrows (data_frame w) ->
  data_frame (snd (run (hash c) w))
  = mkFrame (nrows (data_frame w))
      (assign (columns (data_frame w)) c (apply sha256_hex col)).
Proof.
  intros Hc Hlen. unfold run. now rewrite (hash_data_present w c col Hc Hlen).
Qed.

Lemma table_after_pseudonymize_mixed
  (w : World) (c : string) (col : list Value) :
  lookup (columns (data_frame w)) c = Some col ->
  mixed_missing col = true ->
  data_frame (snd (run (pseudonymize c) w)) = data_frame w.
Proof.
  intros Hc Hmix. now rewrite (frame_after_pseudonymize_mixed w c col Hc Hmix).
Qed.

Lemma table_after_pseudonymize (w : World) (c : string) (col : list Value) :
  lookup (columns (data_frame w)) c = Some col ->
  mixed_missing col = false ->
  List.length col = nrows (data_frame w) ->
  data_frame (snd (run (pseudonymize c) w))
  = mkFrame (nrows (data_frame w))
      (assign (columns (data_frame w)) c
         (mapped (filled (entropy w) (drawn w) (unique col) []) col)).
Proof.
  intros Hc Hmix Hlen. unfold run.
  now rewrite (pseudonymize_data_present w c col Hc Hmix Hlen).
Qed.

(** X8.  Operations on different columns commute on the table: hashing
    a column before or after any operation on another present column
    leaves the same table. *)
Theorem hash_commutes_across_columns
  (w : World) (c1 c2 : string) (col1 col2 : list Value) (op2 : Operation) :
  wf (data_frame w) ->
  c1 <> c2 ->
  getitem (data_frame w) c1 = inr col1 ->
  getitem (data_frame w) c2 = inr col2 ->
  target op2 = Some c2 ->
  data_frame (after [hash c1; op2] w) = data_frame (after [op2; hash c1] w).
Proof.
  intros Hwf Hne G1 G2 Ht. unfold getitem in G1, G2.
  destruct (lookup (columns (data_frame w)) c1) as [v1|] eqn:L1;
    [|discriminate].
  destruct (lookup (columns (data_frame w)) c2) as [v2|] eqn:L2;
    [|discriminate].
  injection G1 as ->. injection G2 as ->.
  pose proof (lookup_length _ _ _ Hwf L1) as Hlen1.
  pose proof (lookup_length _ _ _ Hwf L2) as Hlen2.
  assert (c2 <> c1) as Hne' by congruence.
  rewrite !after_two.
  destruct op2 as [c|c|c kind|c|f]; cbn [target] in Ht;
    try discriminate; injection Ht as ->.
  - (* hash *)
    rewrite (frame_after_hash w c1 col1 Hwf L1).
    rewrite (frame_after_hash w c2 col2 Hwf L2).
    erewrite !table_after_hash;
      try (cbn [printed with_frame data_frame columns nrows];
           first [ rewrite lookup_assign_other by congruence; eassumption
                 | eassumption ]).
    cbn [printed with_frame data_frame columns nrows].
    f_equal. exact (assign_comm _ c1 c2 _ _ _ _ Hne L1 L2).
  - (* pseudonymize *)
    rewrite (frame_after_hash w c1 col1 Hwf L1).
    destruct (mixed_missing col2) eqn:Hmix.
    + rewrite (frame_after_pseudonymize_mixed w c2 col2 L2 Hmix).
      erewrite table_after_pseudonymize_mixed;
        try (cbn [printed with_frame data_frame columns nrows];
             first [ rewrite lookup_assign_other by congruence; eassumption
                   | eassumption ]).
      erewrite table_after_hash;
        try (cbn [printed with_drawn data_frame columns nrows]; eassumption).
      reflexivity.
    + rewrite (frame_after_pseudonymize w c2 col2 Hwf L2 Hmix).
      erewrite table_after_hash;
        try (cbn [printed with_frame with_drawn data_frame columns nrows];
             first [ rewrite lookup_assign_other by congruence; eassumption
                   | eassumption ]).
      erewrite table_after_pseudonymize;
        try (cbn [printed with_frame data_frame columns nrows];
             first [ rewrite lookup_assign_other by congruence; eassumption
                   | eassumption ]).
      cbn [printed with_frame with_drawn data_frame columns nrows
           entropy drawn].
      f_equal. exact (assign_comm _ c1 c2 _ _ _ _ Hne L1 L2).
  - (* substitute_with_synthetic *)
    rewrite (frame_after_hash w c1 col1 Hwf L1).
    destruct (provider_of kind) as [p|] eqn:Hp.
    + rewrite (table_after_substitute _ c2 kind p Hp).
      rewrite (frame_after_substitute w c2 kind p Hp).
      erewrite table_after_hash;
        try (cbn [printed with_frame with_called data_frame columns nrows];
             first [ rewrite lookup_assign_other by congruence; eassumption
                   | eassumption ]).
      cbn [printed with_frame with_called data_frame columns nrows fake called].
      f_equal.
      destruct (lookup_Some (columns (data_frame w)) c2) as [o2 Ho2].
      { apply lookup_In in L2. apply in_map_iff. now exists (c2, col2). }
      exact (assign_comm _ c1 c2 _ _ _ _ Hne L1 Ho2).
    + unfold run at 1 3.
      rewrite !(create_fake_data_unsupported _ c2 kind Hp). cbn [snd].
      erewrite table_after_hash;
        try (cbn [printed data_frame columns nrows]; eassumption).
      reflexivity.
  - (* drop_column *)
    rewrite (frame_after_hash w c1 col1 Hwf L1).
    rewrite (frame_after_drop w c2 col2 L2).
    erewrite table_after_drop
      by (cbn [printed with_frame data_frame columns];
          rewrite lookup_assign_other by congruence; eassumption).
    erewrite table_after_hash;
      try (cbn [printed with_frame data_frame columns nrows];
           first [ rewrite lookup_filter_other by congruence; eassumption
                 | eassumption ]).
    cbn [printed with_frame data_frame columns nrows].
    f_equal. now apply filter_assign_comm.
Qed.

Lemma hash_commutes_across_columns_witness :
  wf (data_frame sample_world) /\
  "Email" <> "Name" /\
  getitem (data_frame sample_world) "Email"
  = inr [VStr "alice@example.com"; VStr "bob@example.com";
         VStr "charlie@example.com"] /\
  getitem (data_frame sample_world) "Name"
  = inr [VStr "Alice"; VStr "Bob"; VStr "Charlie"] /\
  target (pseudonymize "Name") = Some "Name" /\
  data_frame (after [hash "Email"; pseudonymize "Name"] sample_world)
  = data_frame (after [pseudonymize "Name"; hash "Email"] sample_world).
Proof.
  assert ("Email" <> "Name") as Hne by discriminate.
  split; [apply wfb_wf; reflexivity|]. split; [exact Hne|].
  split; [reflexivity|]. split; [reflexivity|]. split; [reflexivity|].
  exact (hash_commutes_across_columns sample_world "Email" "Name" _ _
           (pseudonymize "Name") (wfb_wf sample eq_refl) Hne
           eq_refl eq_refl eq_refl).
Defined.

Lemma assign_same (cols : list (string * list Value)) c vs :
  lookup cols c = Some vs -> assign cols c vs = cols.
Proof.
  induction cols as [|[l old] cols IH]; simpl; [discriminate|].
  destruct (String.eqb_spec l c) as [->|Hl].
  - now intros [= ->].
  - intros H. now rewrite (IH H).
Qed.

(** X9.  On a table without rows the three transforms of a present
    column succeed and leave the world as it was but for their report:
    nothing is hashed, no number is drawn, no provider is called; and the
    export of such a table is its header record alone. *)
Theorem empty_table_is_left_alone (w : World) (c kind : string) :
  wf (data_frame w) ->
  nrows (data_frame w) = 0%nat ->
  In c (labels (data_frame w)) ->
  In kind registered ->
  run (hash c) w = (Returned tt, printed w [Hashed c]) /\
  run (pseudonymize c) w = (Returned tt, printed w [Pseudonymized c]) /\
  run (substitute_with_synthetic c kind) w
  = (Returned tt, printed w [Replaced c kind]) /\
  Csv.to_csv (data_frame w) = Csv.writerow (labels (data_frame w)).
Proof.
  intros Hwf Hn Hin Hk.
  destruct (lookup_Some _ _ Hin) as [col Hc].
  pose proof (lookup_length _ _ _ Hwf Hc) as Hlen.
  apply provider_of_registered in Hk as [p Hp].
  assert (col = []) as ->
    by (destruct col; [reflexivity | rewrite Hn in Hlen; discriminate]).
  unfold run.
  rewrite (hash_data_present w c [] Hc Hlen).
  rewrite (pseudonymize_data_present w c [] Hc eq_refl Hlen).
  rewrite (create_fake_data_supported w c kind p Hp).
  destruct w as [[n cols] e d f cl out fs].
  cbn [data_frame nrows columns] in *. subst n.
  unfold printed, with_frame, with_drawn, with_called, apply, mapped, unique.
  cbn [data_frame nrows columns entropy drawn fake called stdout disk
       map unique_acc List.length generated].
  rewrite (assign_same cols c [] Hc), Nat.mul_0_r, !Nat.add_0_r.
  repeat split; try reflexivity.
  unfold Csv.to_csv, Csv.rows, Csv.writerows. cbn [nrows seq map fold_right].
  apply append_nil_r.
Qed.

Lemma empty_table_is_left_alone_witness :
  let w := with_frame sample_world (mkFrame 0 [("Name", []); ("Email", [])]) in
  wf (data_frame w) /\ nrows (data_frame w) = 0%nat /\
  In "Email" (labels (data_frame w)) /\ In "email" registered /\
  run (hash "Email") w = (Returned tt, printed w [Hashed "Email"]) /\
  Csv.to_csv (data_frame w) = Csv.writerow ["Name"; "Email"].
Proof.
  intros w.
  assert (In "Email" (labels (data_frame w))) as Hin by (simpl; tauto).
  assert (In "email" registered) as Hk by (simpl; tauto).
  split; [apply wfb_wf; reflexivity|]. split; [reflexivity|].
  split; [exact Hin|]. split; [exact Hk|].
  destruct (empty_table_is_left_alone w "Email" "email"
              (wfb_wf (data_frame w) eq_refl) eq_refl Hin Hk)
    as (Hh & _ & _ & Hcsv).
  exact (conj Hh Hcsv).
Defined.

Lemma sample_email_digests :
  apply sha256_hex
    [VStr "alice@example.com"; VStr "bob@example.com";
     VStr "charlie@example.com"]
  = [ VStr "ff8d9819fc0e12bf0d24892e45987e249a28dce836a85cad60e28eaaa8c6d976";
      VStr "5ff860bf1190596c7188ab851db691f0f3169c453936e9e1eba2f9a47f7a0018";
      VStr "add7232b65bb559f896cbcfa9a600170a7ca381a0366789dcf59ad986bdf4a98" ].
Proof. vm_compute. reflexivity. Qed.

(** X10.  The example run of the [__main__] block, in any world that holds
    the sample table and can write the destination, whatever the random
    source and [Faker] return: the four calls succeed in turn; the table
    keeps its three labels and three rows; Email holds the three
    digests, Name three pseudonyms made of successive blocks of ten
    draws, Phone the results of three successive provider calls; and the
    file holds the export of that table. *)
Theorem main_succeeds (w : World) :
  data_frame w = sample ->
  existsb (String.eqb "anonymized_data.csv") (unwritable (disk w)) = false ->
  exists w',
    main w = (Returned tt, w') /\
    stdout w'
    = (stdout w ++ [ Hashed "Email"; Pseudonymized "Name";
                     Replaced "Phone" "phone";
                     Saved "anonymized_data.csv" ])%list /\
    labels (data_frame w') = ["Name"; "Email"; "Phone"] /\
    nrows (data_frame w') = 3%nat /\
    getitem (data_frame w') "Email"
    = inr [ VStr "ff8d9819fc0e12bf0d24892e45987e249a28dce836a85cad60e28eaaa8c6d976";
            VStr "5ff860bf1190596c7188ab851db691f0f3169c453936e9e1eba2f9a47f7a0018";
            VStr "add7232b65bb559f896cbcfa9a600170a7ca381a0366789dcf59ad986bdf4a98" ] /\
    getitem (data_frame w') "Name"
    = inr [ VStr (draws (ascii_letters ++ digits) (entropy w) (drawn w) 10);
            VStr (draws (ascii_letters ++ digits) (entropy w) (drawn w + 10) 10);
            VStr (draws (ascii_letters ++ digits) (entropy w)
                        (drawn w + 10 + 10) 10) ] /\
    getitem (data_frame w') "Phone"
    = inr [ VStr (fake w phone_number (called w));
            VStr (fake w phone_number (S (called w)));
            VStr (fake w phone_number (S (S (called w)))) ] /\
    dict_get String.eqb (files (disk w')) "anonymized_data.csv"
    = Some (Csv.to_csv (data_frame w')).
Proof.
  intros Hdf Hw.
  destruct w as [df e d f cl out fs]. cbn [data_frame disk] in *. subst df.
  unfold main, bind.
  match goal with
  | |- context [hash_data "Email" ?w0] =>
      rewrite (hash_data_present w0 "Email"
                 [VStr "alice@example.com"; VStr "bob@example.com";
                  VStr "charlie@example.com"] eq_refl eq_refl)
  end.
  match goal with
  | |- context [pseudonymize_data "Name" ?w1] =>
      rewrite (pseudonymize_data_present w1 "Name"
                 [VStr "Alice"; VStr "Bob"; VStr "Charlie"]
                 eq_refl eq_refl eq_refl)
  end.
  match goal with
  | |- context [create_fake_data "Phone" "phone" ?w2] =>
      rewrite (create_fake_data_supported w2 "Phone" "phone" phone_number
                 eq_refl)
  end.
  match goal with
  | |- context [save_anonymized_data ?file ?w1] =>
      rewrite (save_written w1 file Hw)
  end.
  eexists. split; [reflexivity|].
  split; [cbn [printed stdout with_disk with_frame with_drawn with_called];
          now rewrite <- !app_assoc|].
  split; [reflexivity|]. split; [reflexivity|].
  split.
  { unfold getitem.
    cbn [printed with_disk with_frame with_drawn with_called data_frame
         columns].
    rewrite !lookup_assign_other by discriminate.
    now rewrite lookup_assign_same, sample_email_digests. }
  split; [reflexivity|].
  split; [reflexivity|].
  cbn [printed with_disk disk stored files]. apply dict_get_set_file.
Qed.

Lemma main_succeeds_witness :
  data_frame sample_world = sample /\
  existsb (String.eqb "anonymized_data.csv")
          (unwritable (disk sample_world)) = false /\
  exists w',
    main sample_world = (Returned tt, w') /\
    labels (data_frame w') = ["Name"; "Email"; "Phone"] /\
    dict_get String.eqb (files (disk w')) "anonymized_data.csv"
    = Some (Csv.to_csv (data_frame w')).
Proof.
  split; [reflexivity|]. split; [reflexivity|].
  destruct (main_succeeds sample_world eq_refl eq_refl)
    as (w' & Hrun & _ & Hl & _ & _ & _ & _ & Hfile).
  exists w'. exact (conj Hrun (conj Hl Hfile)).
Defined.

Lemma alphanumeric_ordinary (c : ascii) :
  alphanumeric c = true -> Csv.special c = false /\ Ascii.eqb c CR = false.
Proof.
  destruct c as [[] [] [] [] [] [] [] []]; intros H;
    first [discriminate H | split; reflexivity].
Qed.

Lemma lower_hex_alphanumeric (c : ascii) :
  lower_hex c = true -> alphanumeric c = true.
Proof.
  destruct c as [[] [] [] [] [] [] [] []]; intros H;
    first [discriminate H | reflexivity].
Qed.

Lemma alphanumeric_field (s : string) :
  Forall (fun c => alphanumeric c = true) (list_ascii_of_string s) ->
  Csv.write_field s = s /\ no_cr s = true.
Proof.
  intros H.
  assert (Csv.needs_quote s = false /\ no_cr s = true) as [Hq Hcr].
  { induction s as [|c s IH]; [split; reflexivity|].
    cbn [list_ascii_of_string] in H. inversion H as [|? ? Hc Hs]; subst.
    destruct (alphanumeric_ordinary c Hc) as [Hsp Hc'].
    destruct (IH Hs) as [Hq Hcr]. simpl. now rewrite Hsp, Hc', Hq, Hcr. }
  split; [|exact Hcr]. unfold Csv.write_field. now rewrite Hq.
Qed.

(** X11.  What [hash] and [pseudonymize] put into a column is exported
    as it stands: a digest or a pseudonym holds no comma, double quote,
    line feed or carriage return, so the writer leaves it unquoted. *)
Theorem anonymized_values_export_verbatim :
  (forall v,
     Csv.write_field (Csv.csv_str (sha256_hex v))
     = SHA256.hexdigest (encode (str v)) /\
     no_cr (Csv.csv_str (sha256_hex v)) = true)
  /\
  (forall p,
     is_pseudonym p ->
     Csv.write_field (Csv.csv_str (VStr p)) = p /\
     no_cr (Csv.csv_str (VStr p)) = true).
Proof.
  split.
  - intros v. unfold sha256_hex. cbn [Csv.csv_str str].
    apply alphanumeric_field.
    destruct (hexdigest_shape (encode (str v))) as [_ Hhex].
    eapply Forall_impl; [|exact Hhex]. apply lower_hex_alphanumeric.
  - intros p [_ Hp]. cbn [Csv.csv_str str]. now apply alphanumeric_field.
Qed.

Lemma anonymized_values_export_verbatim_witness :
  is_pseudonym "dkryFMT07e" /\
  Csv.write_field (Csv.csv_str (VStr "dkryFMT07e")) = "dkryFMT07e".
Proof.
  assert (is_pseudonym "dkryFMT07e") as H.
  { split; [reflexivity|]. apply Forall_forall, forallb_forall. reflexivity. }
  split; [exact H|].
  exact (proj1 (proj2 anonymized_values_export_verbatim "dkryFMT07e" H)).
Defined.
